(** * SiteGuard video analyzer: report store, response parsing, evidence
      binding, frame capture and audio repair

    A shallow embedding of the parts of the repository that the specification
    talks about:

    - [src/services/apiService.ts]: the in-memory report store;
    - [src/App.tsx]: [captureFrameAtTime], the effect that generates the
      thumbnails and its loop [generateAllThumbnails], the decode step of
      [handleAnalyzeVideo], the selection of a report of the history,
      [handleSaveReport] and [handleUpdateReport];
    - [src/services/geminiService.ts]: [uploadVideoFile] and the fallback of
      [analyzeUploadedVideo];
    - [src/backend/src/services/videoProcessor.js]: [detectAudioIssues],
      [processVideo], [processVideoFile] and [deleteVideo];
    - [src/backend/src/routes/analysis.js] and
      [src/backend/src/routes/reports.js]: the routes that write the tables;
    - [src/scripts/preprocess-video.sh]: [fix_audio_stream].

    JavaScript objects are finite maps from property names to values, arrays
    are lists.  What the platform decides (the clock, [JSON.parse], the media
    element's events, ffmpeg and ffprobe) enters every function as an explicit
    argument, so each function is a total, executable Rocq function. *)

From Stdlib Require Import QArith Ascii String.
From stdpp Require Import gmap strings list fin_maps pretty sorting.

Set Warnings "-register-all".
Set Default Proof Using "Type".

(** ** JavaScript values *)

Module Js.

Inductive JsValue : Type :=
| JUndefined
| JNull
| JBool (b : bool)
| JNum (q : Q)
| JStr (s : string)
| JArr (l : list JsValue)
| JObj (o : gmap string JsValue).

(** ToBoolean. Numbers are rationals here: there is no NaN to be falsy. *)
Definition truthy (v : JsValue) : bool :=
  match v with
  | JUndefined | JNull => false
  | JBool b => b
  | JNum q => negb (Qeq_bool q 0)
  | JStr s => negb (bool_decide (s = ""))
  | JArr _ | JObj _ => true
  end.

(** [o.k] on an object: [undefined] when the property is absent. *)
Definition get (o : gmap string JsValue) (k : string) : JsValue :=
  default JUndefined (o !! k).

(** [v.k] on any value.  [None] is the TypeError raised on [null] and
    [undefined].  Of the properties that arrays and strings inherit only
    [length] is read by the code modelled here. *)
Definition read (v : JsValue) (k : string) : option JsValue :=
  match v with
  | JUndefined | JNull => None
  | JObj o => Some (get o k)
  | JArr l => Some (if bool_decide (k = "length")
                    then JNum (inject_Z (Z.of_nat (length l))) else JUndefined)
  | JStr s => Some (if bool_decide (k = "length")
                    then JNum (inject_Z (Z.of_nat (String.length s))) else JUndefined)
  | JBool _ | JNum _ => Some JUndefined
  end.

(** [v.k] where [v] is known not to be [null] or [undefined]. *)
Definition field (v : JsValue) (k : string) : JsValue :=
  default JUndefined (read v k).

(** [a === b].  Two arrays or two objects are equal only when they are the
    same reference, which the value model does not record: the comparison is
    used on identifiers, which are primitives. *)
Definition strict_eq (a b : JsValue) : bool :=
  match a, b with
  | JUndefined, JUndefined | JNull, JNull => true
  | JBool x, JBool y => bool_decide (x = y)
  | JNum x, JNum y => Qeq_bool x y
  | JStr x, JStr y => bool_decide (x = y)
  | _, _ => false
  end.

(** [a || b]. *)
Definition or_else (a b : JsValue) : JsValue := if truthy a then a else b.

(** [v === 0]. *)
Definition is_zero (v : JsValue) : bool :=
  match v with
  | JNum q => Qeq_bool q 0
  | _ => false
  end.

(** [o.hasOwnProperty(k)]. *)
Definition hasOwnProperty (o : gmap string JsValue) (k : string) : bool :=
  bool_decide (is_Some (o !! k)).

(** [{ ...a, ...b }]: the properties of [b] win. *)
Definition spread (a b : gmap string JsValue) : gmap string JsValue := b ∪ a.

(** [Array.prototype.findIndex]; [None] stands for [-1]. *)
Fixpoint findIndex {A} (p : A → bool) (l : list A) : option nat :=
  match l with
  | [] => None
  | x :: l' => if p x then Some 0 else S <$> findIndex p l'
  end.

End Js.

Import Js.

Abbreviation obj := (gmap string JsValue).

(** ** The report store: src/services/apiService.ts *)

Module ApiService.

(** The two clock reads of [addVideoAnalysisReport]: [Date.now()] in
    milliseconds and [new Date().toISOString()]. *)
Record Clock := { Date_now : Z; toISOString : string }.

(** [`var-${Date.now()}`] *)
Definition new_id (clk : Clock) : string := "var-" +:+ pretty (Date_now clk).

(** [addVideoAnalysisReport]: the body after the delay.  The module-level
    array [mockVideoAnalysisReports] is threaded as [mock]. *)
Definition addVideoAnalysisReport (clk : Clock) (reportData : obj)
    (mock : list obj) : obj * list obj :=
  let newReport :=
    <["analysisDateTime" := JStr (toISOString clk)]>
      (<["id" := JStr (new_id clk)]> reportData) in
  (newReport, mock ++ [newReport]).

(** [getVideoAnalysisReportById]: [find(r => r.id === id)]; [None] is
    [undefined]. *)
Definition getVideoAnalysisReportById (id : JsValue) (mock : list obj)
    : option obj :=
  List.find (λ r, strict_eq (get r "id") id) mock.

(** [updateVideoAnalysisReport]: the result and the array afterwards; [inl]
    is the message of the thrown error.  [findIndex] only returns positions
    inside the array, so the read of [mock[reportIndex]] always finds a
    report. *)
Definition updateVideoAnalysisReport (id : JsValue) (updates : obj)
    (mock : list obj) : (string + obj) * list obj :=
  match findIndex (λ r, strict_eq (get r "id") id) mock with
  | None => (inl "Report not found for update.", mock)
  | Some reportIndex =>
      let originalReport := default ∅ (mock !! reportIndex) in
      let updated := spread originalReport updates in
      (inr updated, <[reportIndex := updated]> mock)
  end.

(** The round trip of section 8 of the specification: the report fetched by
    the returned id has the violations, the summary and the score of the
    payload. *)
Definition roundTrip (clk : Clock) (reportData : obj) (mock : list obj) : Prop :=
  let '(newReport, mock') := addVideoAnalysisReport clk reportData mock in
  ∃ fetched,
    getVideoAnalysisReportById (get newReport "id") mock' = Some fetched
    ∧ get fetched "violations" = get reportData "violations"
    ∧ get fetched "summary" = get reportData "summary"
    ∧ get fetched "safetyScore" = get reportData "safetyScore".

(** A report with the given id is in the store. *)
Definition present (id : JsValue) (mock : list obj) : Prop :=
  ∃ r, r ∈ mock ∧ strict_eq (get r "id") id = true.

End ApiService.

(** ** Decoding the model's answer: src/services/geminiService.ts and the
       decode step of [handleAnalyzeVideo] in src/App.tsx *)

Module Parser.

(** What [JSON.parse] does on a text: it throws a SyntaxError or returns the
    decoded value. *)
Inductive DecodeOutcome :=
| SyntaxError
| Decoded (v : JsValue).

(** The object that [analyzeUploadedVideo] serialises when the answer of the
    model is not JSON (geminiService.ts, lines 176-183). *)
Definition nonJsonFallback (response_text : string) : obj :=
  <["error" := JStr "Gemini response was not valid JSON."]>
  (<["rawResponse" := JStr response_text]>
  (<["summary" := JStr "Failed to parse analysis."]>
  (<["safetyScore" := JNum 0]>
  (<["violations" := JArr []]>
  (<["positiveObservations" := JArr []]> ∅))))).

(** The object stored by the [catch] of the decode step (App.tsx, line 307). *)
Definition parseFailure (geminiJsonString : string) : obj :=
  <["error" := JStr "Failed to parse analysis result."]>
  (<["violations" := JArr []]>
  (<["rawResponse" := JStr geminiJsonString]> ∅)).

(** The [try]/[catch] around [JSON.parse(geminiJsonString)] in
    [handleAnalyzeVideo]: the value handed to [setAnalysisResult].  Reading
    [parsed.error] on [null] raises a TypeError inside the [try], which the
    same [catch] handles. *)
Definition parseAnalysisResponse (geminiJsonString : string)
    (outcome : DecodeOutcome) : JsValue :=
  match outcome with
  | SyntaxError => JObj (parseFailure geminiJsonString)
  | Decoded parsed =>
      match read parsed "error" with
      | None => JObj (parseFailure geminiJsonString)
      | Some error =>
          if truthy error then
            match parsed with
            | JObj o => JObj (spread (<["violations" := JArr []]> ∅) o)
            | _ => parsed
            end
          else parsed
      end
  end.





End Parser.

(** ** Frame capture: [captureFrameAtTime] in src/App.tsx *)

Module Capture.

Definition HAVE_NOTHING : Z := 0.
Definition HAVE_METADATA : Z := 1.

(** The properties of the video element that the code reads.  The playback
    position is only written, with [videoElement.currentTime = timeSeconds]:
    where the element stands afterwards is the browser's decision (it keeps
    the position inside the media) and no code reads it, so the assignment
    appears among the calls and not in this record. *)
Record HTMLVideoElement := {
  readyState : Z;
  currentSrc : string;
  paused : bool;
  isConnected : bool;
  videoWidth : Z;
  videoHeight : Z;
}.

(** Which of [loadedmetadata] and the 5000 ms timer comes first. *)
Inductive MetadataSignal := LoadedMetadata | MetadataTimeout.

(** Which of [seeked], [error] and the 7000 ms timer comes first.  With
    [Seeked] the frame callback that the listener of [seeked] requests is
    run. *)
Inductive SeekSignal := Seeked | MediaError | SeekTimeout.

(** What the browser does while the promise is pending: the signals, and
    what the handlers find when they run.  Every callback that the code
    hands to a timer or to [requestAnimationFrame] is taken to be run: a page
    that the browser keeps frozen is outside the model. *)
Record Browser := {
  metadataSignal : MetadataSignal;
  seekSignal : SeekSignal;
  connectedAtExit : bool;   (* [videoElement.isConnected] in the handler *)
  widthAtFrame : Z;         (* [videoElement.videoWidth] in the frame callback *)
  heightAtFrame : Z;        (* [videoElement.videoHeight] in the frame callback *)
  context2d : bool;         (* [canvas.getContext('2d')] is not null *)
  dataURL : string;         (* [canvas.toDataURL('image/jpeg', 0.8)] *)
  stringToNumber : string → option Q;
    (* the number that the language reads in a text; [None] when it is not a
       finite number *)
}.

(** The conversion that the assignment to [currentTime] applies to its
    operand: [None] when the result is not a finite number, and the
    assignment throws a TypeError.  [undefined] and an object give NaN;
    [null], [false] and the empty array give 0; an array of one element is
    converted as the text of that element. *)
Fixpoint toNumber (ofString : string → option Q) (v : JsValue) : option Q :=
  match v with
  | JUndefined => None
  | JNull => Some 0%Q
  | JBool b => Some (if b then 1%Q else 0%Q)
  | JNum q => Some q
  | JStr s => ofString s
  | JArr [] => Some 0%Q
  | JArr [x] =>
      match x with
      | JUndefined | JNull => Some 0%Q
      | JBool _ | JObj _ => None
      | JNum _ | JStr _ | JArr _ => toNumber ofString x
      end
  | JArr (_ :: _ :: _) => None
  | JObj _ => None
  end.

(** How the promise ends. *)
Inductive Settled :=
| Resolved (thumbnailUrl : option string)   (* [None] is [null] *)
| Rejected (message : string)
| Pending.                                   (* it is never settled *)

(** The calls made on the element, in order. *)
Inductive Call :=
| CallPause
| CallSeek (timeSeconds : JsValue)
| CallDrawImage
| CallPlay.

Record Capture := {
  settled : Settled;
  element : HTMLVideoElement;
  calls : list Call;
}.

Definition pause (v : HTMLVideoElement) : HTMLVideoElement :=
  {| readyState := readyState v; currentSrc := currentSrc v; paused := true;
     isConnected := isConnected v; videoWidth := videoWidth v;
     videoHeight := videoHeight v |}.

(** [videoElement.play()]: the element leaves the paused state.  A refusal
    of the browser to start playback would only be logged by the [catch]
    that follows each call. *)
Definition play (v : HTMLVideoElement) : HTMLVideoElement :=
  {| readyState := readyState v; currentSrc := currentSrc v; paused := false;
     isConnected := isConnected v; videoWidth := videoWidth v;
     videoHeight := videoHeight v |}.

(** The element as the handlers find it. *)
Definition observe (b : Browser) (v : HTMLVideoElement) : HTMLVideoElement :=
  {| readyState := readyState v; currentSrc := currentSrc v; paused := paused v;
     isConnected := connectedAtExit b; videoWidth := widthAtFrame b;
     videoHeight := heightAtFrame b |}.

(** [if (!wasPaused && videoElement.isConnected) videoElement.play()] *)
Definition resume (wasPaused : bool) (v : HTMLVideoElement)
    : HTMLVideoElement * list Call :=
  if negb wasPaused && isConnected v then (play v, [CallPlay]) else (v, []).

(** The TypeError of the assignment, in the wording of one browser. *)
Definition nonFinite : string :=
  "Failed to set the 'currentTime' property on 'HTMLMediaElement': The provided double value is non-finite.".

(** Where [proceedWithCapture] is called: in the executor of the promise,
    which turns an exception into a rejection, or in the listener of
    [loadedmetadata], where nothing catches it. *)
Inductive Caller := Executor | MetadataListener.

(** [proceedWithCapture].  When the operand of the assignment of line 129 is
    not a finite number the assignment throws: the element has been paused,
    no seek is made, the timer is not started and no handler will run.  The
    two listeners that stay on the element read [seekTimeoutId] before its
    initialisation when a later event calls them, and end there. *)
Definition proceedWithCapture (caller : Caller)
    (videoElement : HTMLVideoElement) (timeSeconds : JsValue) (b : Browser)
    : Capture :=
  let wasPaused := paused videoElement in
  let '(v1, c1) :=
    if negb wasPaused then (pause videoElement, [CallPause])
    else (videoElement, []) in
  match toNumber (stringToNumber b) timeSeconds with
  | None =>
      {| settled :=
           match caller with
           | Executor => Rejected nonFinite
           | MetadataListener => Pending
           end;
         element := v1; calls := c1 |}
  | Some _ =>
      let v2 := observe b v1 in
      let c2 := c1 ++ [CallSeek timeSeconds] in
      match seekSignal b with
      | Seeked =>
          if bool_decide (videoWidth v2 = 0%Z)
             || bool_decide (videoHeight v2 = 0%Z)
          then
            let '(v3, c3) := resume wasPaused v2 in
            {| settled := Resolved None; element := v3; calls := c2 ++ c3 |}
          else
            let '(v3, c3) := resume wasPaused v2 in
            if context2d b then
              {| settled := Resolved (Some (dataURL b)); element := v3;
                 calls := c2 ++ [CallDrawImage] ++ c3 |}
            else
              {| settled := Resolved None; element := v3; calls := c2 ++ c3 |}
      | MediaError =>
          let '(v3, c3) := resume wasPaused v2 in
          {| settled := Rejected "Video seeking error during frame capture.";
             element := v3; calls := c2 ++ c3 |}
      | SeekTimeout =>
          let '(v3, c3) := resume wasPaused v2 in
          {| settled := Rejected "Timeout during frame capture seeking.";
             element := v3; calls := c2 ++ c3 |}
      end
  end.

(** The body of the promise of [captureFrameAtTime] for an element that is
    present, whatever value is passed for [timeSeconds]. *)
Definition captureOnElement (v : HTMLVideoElement) (timeSeconds : JsValue)
    (b : Browser) : Capture :=
  if bool_decide (readyState v < HAVE_METADATA)%Z then
    if bool_decide (readyState v = HAVE_NOTHING)
       && bool_decide (currentSrc v = "")
    then {| settled := Resolved None; element := v; calls := [] |}
    else
      match metadataSignal b with
      | MetadataTimeout =>
          {| settled := Resolved None; element := v; calls := [] |}
      | LoadedMetadata => proceedWithCapture MetadataListener v timeSeconds b
      end
  else proceedWithCapture Executor v timeSeconds b.

(** [captureFrameAtTime] as it runs, the types being erased: how the
    returned promise ends, whatever value is passed for [timeSeconds].
    [None] is an absent element, for which the promise resolves to [null]. *)
Definition captureFrameAt (videoElement : option HTMLVideoElement)
    (timeSeconds : JsValue) (b : Browser) : Settled :=
  match videoElement with
  | None => Resolved None
  | Some v => settled (captureOnElement v timeSeconds b)
  end.

(** [captureFrameAtTime] at its declared type, [timeSeconds: number], for a
    number that is finite. *)
Definition captureFrameAtTime (videoElement : option HTMLVideoElement)
    (timeSeconds : Q) (b : Browser) : Settled :=
  captureFrameAt videoElement (JNum timeSeconds) b.

End Capture.

(** ** Evidence binding: [generateAllThumbnails] in src/App.tsx *)

Module Binder.

Import Capture.

(** How the loop stands. *)
Inductive Standing :=
| Running
| Waiting     (* at an [await] whose promise is never settled *)
| Thrown.     (* a TypeError has left the loop, and the function *)

(** The local variables of the loop, and the log of the captures made. *)
Record Loop := {
  updatedViolations : list JsValue;
  player : HTMLVideoElement;
  thumbnailsGeneratedCount : nat;
  captures : list (nat * JsValue);   (* position and [timeSeconds] of each call *)
  standing : Standing;
}.

(** The value stored as [thumbnailDataUrl]: the data URL, or [null] after a
    [null] result and after a rejection (the [catch] of the loop).  [None]:
    the promise is never settled and nothing is stored. *)
Definition thumbnailOf (s : Settled) : option JsValue :=
  match s with
  | Resolved (Some url) => Some (JStr url)
  | Resolved None => Some JNull
  | Rejected _ => Some JNull
  | Pending => None
  end.

(** [if (thumbnailUrl) thumbnailsGeneratedCount++], which the [catch] skips. *)
Definition counts (s : Settled) : bool :=
  match s with
  | Resolved (Some url) => truthy (JStr url)
  | _ => false
  end.

(** [violation.hasOwnProperty('thumbnailDataUrl')] on an entry of the list,
    the call of lines 326 and 364, which no [try] encloses.  [None] is a
    TypeError: the entry is [null] or [undefined], or it is an object with a
    property [hasOwnProperty] of its own, which in decoded JSON is not a
    function.  A number, a boolean, a text and an array inherit the method
    and own no property of that name. *)
Definition hasThumbnail (violation : JsValue) : option bool :=
  match violation with
  | JUndefined | JNull => None
  | JObj o =>
      if hasOwnProperty o "hasOwnProperty" then None
      else Some (hasOwnProperty o "thumbnailDataUrl")
  | JBool _ | JNum _ | JStr _ | JArr _ => Some false
  end.

(** The call returns. *)
Definition answers (violation : JsValue) : bool :=
  bool_decide (is_Some (hasThumbnail violation)).

(** The call returns [false]: the entry is pending. *)
Definition lacksThumbnail (violation : JsValue) : bool :=
  bool_decide (hasThumbnail violation = Some false).

(** The properties that [{ ...violation }] copies: those of an object, the
    elements of an array and the characters of a text under their positions,
    none for a number or a boolean. *)
Definition ownProperties (violation : JsValue) : obj :=
  match violation with
  | JObj o => o
  | JArr l => list_to_map (imap (λ i x, (pretty i, x)) l)
  | JStr s =>
      list_to_map (imap (λ i c, (pretty i, JStr (String c EmptyString)))
                     (list_ascii_of_string s))
  | JUndefined | JNull | JBool _ | JNum _ => ∅
  end.

(** One iteration of [for (let i = 0; i < updatedViolations.length; i++)].
    [browser i] is what the browser does during the capture made at
    position [i].  Between two captures the player is as the earlier one
    left it: a user who changes the video while the loop runs is outside
    the model. *)
Definition iteration (browser : nat → Browser) (st : Loop) (i : nat) : Loop :=
  match standing st with
  | Running =>
      match updatedViolations st !! i with
      | None => st
      | Some violation =>
          match hasThumbnail violation with
          | None =>
              {| updatedViolations := updatedViolations st;
                 player := player st;
                 thumbnailsGeneratedCount := thumbnailsGeneratedCount st;
                 captures := captures st;
                 standing := Thrown |}
          | Some true => st
          | Some false =>
              let timeSeconds := field violation "startTimeSeconds" in
              let c := captureOnElement (player st) timeSeconds (browser i) in
              match thumbnailOf (settled c) with
              | Some thumbnailUrl =>
                  {| updatedViolations :=
                       <[i := JObj (<["thumbnailDataUrl" := thumbnailUrl]>
                                      (ownProperties violation))]>
                         (updatedViolations st);
                     player := element c;
                     thumbnailsGeneratedCount :=
                       if counts (settled c)
                       then S (thumbnailsGeneratedCount st)
                       else thumbnailsGeneratedCount st;
                     captures := captures st ++ [(i, timeSeconds)];
                     standing := Running |}
              | None =>
                  {| updatedViolations := updatedViolations st;
                     player := element c;
                     thumbnailsGeneratedCount := thumbnailsGeneratedCount st;
                     captures := captures st ++ [(i, timeSeconds)];
                     standing := Waiting |}
              end
          end
      end
  | Waiting | Thrown => st
  end.

(** The loop after its first [k] iterations, started on the copy
    [updatedViolations = [...violations]]. *)
Definition loopUpTo (browser : nat → Browser)
    (currentVideoPlayer : HTMLVideoElement) (violations : list JsValue)
    (k : nat)
    : Loop :=
  foldl (iteration browser)
    {| updatedViolations := violations; player := currentVideoPlayer;
       thumbnailsGeneratedCount := 0; captures := []; standing := Running |}
    (seq 0 k).

(** The whole loop: positions [0 .. length - 1]. *)
Definition thumbnailLoop (browser : nat → Browser)
    (currentVideoPlayer : HTMLVideoElement) (violations : list JsValue)
    : Loop :=
  loopUpTo browser currentVideoPlayer violations (length violations).


(** The player once [loadedmetadata] has fired. *)
Definition withMetadata (p : HTMLVideoElement) : HTMLVideoElement :=
  {| readyState := HAVE_METADATA; currentSrc := currentSrc p;
     paused := paused p; isConnected := isConnected p;
     videoWidth := videoWidth p; videoHeight := videoHeight p |}.

(** The player on which the loop starts. *)
Definition playerAtLoop (p : HTMLVideoElement) : HTMLVideoElement :=
  if bool_decide (readyState p < HAVE_METADATA)%Z then withMetadata p else p.

(** [generateAllThumbnails] up to the end of its loop.  [metadataLoaded]
    tells which of [loadedmetadata] and [error] ends the wait for metadata,
    when the player has none yet.  [None]: the function returned before the
    loop. *)
Definition generateAllThumbnails (browser : nat → Browser)
    (metadataLoaded : bool) (currentVideoPlayer : option HTMLVideoElement)
    (violations : list JsValue) : option Loop :=
  match currentVideoPlayer with
  | None => None
  | Some p =>
      if bool_decide (readyState p < HAVE_METADATA)%Z then
        if metadataLoaded
        then Some (thumbnailLoop browser (withMetadata p) violations)
        else None
      else Some (thumbnailLoop browser p violations)
  end.

End Binder.

(** ** Saving and updating a report: [handleSaveReport] and
       [handleUpdateReport] in src/App.tsx *)

Module Lifecycle.

Import ApiService.

Record File := { file_name : string }.

Record UploadedFileDetails := {
  up_name : string;
  up_uri : string;
  up_videoId : string;
  up_mimeType : string;
}.

(** The React state that the two handlers read. *)
Record AppState := {
  selectedFile : option File;
  uploadedFileDetails : option UploadedFileDetails;
  analysisResult : JsValue;               (* [JNull] before an analysis *)
  rawGeminiResponse : option string;
  savedReport : option obj;
  selectedReportForViewing : option obj;
  operatorComments : string;
  currentReportStatus : string;
  jsaContext : string;
  userInstructionPrompt : string;
}.

(** What the handlers take from the platform. *)
Record Platform := {
  clock : Clock;                          (* the clock reads of the store *)
  saveTime : string;                      (* [new Date().toISOString()] *)
  JSON_stringify : JsValue → string;
  videoDuration : JsValue;                (* [videoPlayerRef.current?.duration] *)
  durationIsFinite : bool;                (* [Number.isFinite(videoDuration)] *)
}.

Inductive ToastType := success | error | warning | info.

Record Handled := {
  toasts : list (string * ToastType);
  state : AppState;
  mock : list obj;
}.

Definition setSavedReport (r : obj) (st : AppState) : AppState :=
  {| selectedFile := selectedFile st;
     uploadedFileDetails := uploadedFileDetails st;
     analysisResult := analysisResult st;
     rawGeminiResponse := rawGeminiResponse st;
     savedReport := Some r;
     selectedReportForViewing := selectedReportForViewing st;
     operatorComments := operatorComments st;
     currentReportStatus := currentReportStatus st;
     jsaContext := jsaContext st;
     userInstructionPrompt := userInstructionPrompt st |}.

Definition setSelectedReportForViewing (r : obj) (st : AppState) : AppState :=
  {| selectedFile := selectedFile st;
     uploadedFileDetails := uploadedFileDetails st;
     analysisResult := analysisResult st;
     rawGeminiResponse := rawGeminiResponse st;
     savedReport := savedReport st;
     selectedReportForViewing := Some r;
     operatorComments := operatorComments st;
     currentReportStatus := currentReportStatus st;
     jsaContext := jsaContext st;
     userInstructionPrompt := userInstructionPrompt st |}.

(** [analysisResult.error && (!analysisResult.violations ||
    analysisResult.violations.length === 0)] *)
Definition criticalErrorWithoutViolations (analysisResult : JsValue) : bool :=
  truthy (field analysisResult "error")
  && (negb (truthy (field analysisResult "violations"))
      || is_zero (field (field analysisResult "violations") "length")).

(** The [disabled] attribute of the button "Save Analysis Report". *)
Definition saveDisabled (st : AppState) : bool :=
  negb (truthy (analysisResult st))
  || criticalErrorWithoutViolations (analysisResult st).

(** [handleUpdateReport] *)
Definition handleUpdateReport (st : AppState) (mock : list obj) : Handled :=
  match savedReport st with
  | None =>
      {| toasts := [("No report selected to update.", warning)];
         state := st; mock := mock |}
  | Some saved =>
      let viewedId :=
        match selectedReportForViewing st with
        | Some viewed => get viewed "id"
        | None => JUndefined
        end in
      let updatedData : obj :=
        <["operatorComments" := JStr (operatorComments st)]>
        (<["reportStatus" := JStr (currentReportStatus st)]>
        (<["violations" :=
             if strict_eq viewedId (get saved "id")
             then match selectedReportForViewing st with
                  | Some viewed => get viewed "violations"
                  | None => JUndefined
                  end
             else get saved "violations"]> ∅)) in
      match updateVideoAnalysisReport (get saved "id") updatedData mock with
      | (inl message, mock') =>
          {| toasts := [("Failed to update report: " +:+ message, error)];
             state := st; mock := mock' |}
      | (inr updated, mock') =>
          let st1 := setSavedReport updated st in
          let st2 :=
            match selectedReportForViewing st with
            | Some viewed =>
                if strict_eq (get viewed "id") (get updated "id")
                then setSelectedReportForViewing updated st1 else st1
            | None => st1
            end in
          {| toasts := [("Report updated successfully!", success)];
             state := st2; mock := mock' |}
      end
  end.

(** The object [reportToSave] built for a new analysis. *)
Definition reportToSave (pf : Platform) (st : AppState) (currentFile : File)
    (currentUploadedDetails : UploadedFileDetails) : obj :=
  let analysisResult := analysisResult st in
  <["videoId" := JStr (up_videoId currentUploadedDetails)]>
  (<["videoFileName" := JStr (file_name currentFile)]>
  (<["videoFileUri" := JStr (up_uri currentUploadedDetails)]>
  (<["analysisDateTime" := JStr (saveTime pf)]>
  (<["jsaContext" := JStr (jsaContext st)]>
  (<["userPrompt" := JStr (userInstructionPrompt st)]>
  (<["geminiRawResponse" :=
       match rawGeminiResponse st with
       | Some raw =>
           if truthy (JStr raw) then JStr raw
           else JStr (JSON_stringify pf analysisResult)
       | None => JStr (JSON_stringify pf analysisResult)
       end]>
  (<["summary" := field analysisResult "summary"]>
  (<["safetyScore" := field analysisResult "safetyScore"]>
  (<["violations" := or_else (field analysisResult "violations") (JArr [])]>
  (<["positiveObservations" := field analysisResult "positiveObservations"]>
  (<["operatorComments" := JStr (operatorComments st)]>
  (<["reportStatus" := JStr (currentReportStatus st)]>
  (<["videoDurationSeconds" :=
       if truthy (videoDuration pf) && durationIsFinite pf
       then videoDuration pf else JUndefined]> ∅))))))))))))).

(** [handleSaveReport].  After a save the handler copies
    [newSavedReport.operatorComments || ""] and [newSavedReport.reportStatus]
    back into the state they were just taken from, and reloads the history
    list, which is not part of [AppState]. *)
Definition handleSaveReport (pf : Platform) (st : AppState) (mock : list obj)
    : Handled :=
  let currentFile := selectedFile st in
  let currentUploadedDetails := uploadedFileDetails st in
  let viewing := bool_decide (is_Some (selectedReportForViewing st)) in
  if negb viewing && truthy (analysisResult st)
     && criticalErrorWithoutViolations (analysisResult st)
  then
    {| toasts := [("Cannot save report with critical analysis errors and no violation data.", error)];
       state := st; mock := mock |}
  else if negb viewing
          && (negb (truthy (analysisResult st))
              || (negb (bool_decide (is_Some currentFile))
                  || negb (bool_decide (is_Some currentUploadedDetails))))
  then
    {| toasts := [("No new analysis result or file details to save.", warning)];
       state := st; mock := mock |}
  else
    match selectedReportForViewing st with
    | Some viewed =>
        match savedReport st with
        | Some saved =>
            if negb (strict_eq (get saved "id") (get viewed "id"))
            then
              {| toasts := [("Inconsistent state: trying to update a historical report that is not set as active.", error)];
                 state := st; mock := mock |}
            else handleUpdateReport st mock
        | None =>
            {| toasts := [("Inconsistent state: trying to update a historical report that is not set as active.", error)];
               state := st; mock := mock |}
        end
    | None =>
        match currentFile, currentUploadedDetails with
        | Some file, Some details =>
            if truthy (analysisResult st) then
              let '(newSavedReport, mock') :=
                addVideoAnalysisReport (clock pf)
                  (reportToSave pf st file details) mock in
              {| toasts := [("Analysis report saved successfully!", success)];
                 state := setSavedReport newSavedReport st; mock := mock' |}
            else
              {| toasts := [("Missing file, upload details, or analysis results for new report.", error)];
                 state := st; mock := mock |}
        | _, _ =>
            {| toasts := [("Missing file, upload details, or analysis results for new report.", error)];
               state := st; mock := mock |}
        end
    end.

End Lifecycle.

(** ** Audio inspection and repair:
       src/backend/src/services/videoProcessor.js *)

Module VideoProcessor.

(** A field of an ffprobe stream as fluent-ffmpeg hands it over: a number
    when ffprobe printed decimal digits, the printed text otherwise.  The
    fields read here, [channels] and [sample_rate], are whole numbers. *)
Inductive ProbeValue :=
| PNum (n : Z)
| PStr (s : string).

(** The audio stream; [None] is a field that ffprobe did not print. *)
Record AudioStream := {
  codec_name : option ProbeValue;
  channels : option ProbeValue;
  sample_rate : option ProbeValue;
}.

(** ToBoolean of a field. *)
Definition truthy (v : option ProbeValue) : bool :=
  match v with
  | None => false
  | Some (PNum n) => negb (bool_decide (n = 0%Z))
  | Some (PStr s) => negb (bool_decide (s = ""))
  end.

(** [v === 0] *)
Definition is_zero (v : option ProbeValue) : bool :=
  match v with
  | Some (PNum n) => bool_decide (n = 0%Z)
  | _ => false
  end.

(** [`${v}`] in the message of an issue. *)
Definition show (v : option ProbeValue) : string :=
  match v with
  | None => "undefined"
  | Some (PNum n) => pretty n
  | Some (PStr s) => s
  end.

Definition is_space (c : ascii) : bool :=
  bool_decide (c = " "%char) || bool_decide (c = "009"%char)
  || bool_decide (c = "010"%char) || bool_decide (c = "011"%char)
  || bool_decide (c = "012"%char) || bool_decide (c = "013"%char).

Fixpoint skip_spaces (s : string) : string :=
  match s with
  | String c s' => if is_space c then skip_spaces s' else s
  | EmptyString => s
  end.

(** The value of a digit in the given radix. *)
Definition digit (radix : Z) (c : ascii) : option Z :=
  let n := Z.of_nat (nat_of_ascii c) in
  let d :=
    if bool_decide (48 ≤ n ≤ 57)%Z then Some (n - 48)%Z
    else if bool_decide (97 ≤ n ≤ 122)%Z then Some (n - 87)%Z
    else if bool_decide (65 ≤ n ≤ 90)%Z then Some (n - 55)%Z
    else None in
  match d with
  | Some k => if bool_decide (k < radix)%Z then Some k else None
  | None => None
  end.

(** The longest prefix of digits, read from the left; [None] when there is
    no digit. *)
Fixpoint digits (radix : Z) (acc : option Z) (s : string) : option Z :=
  match s with
  | String c s' =>
      match digit radix c with
      | Some k => digits radix (Some (default 0 acc * radix + k)%Z) s'
      | None => acc
      end
  | EmptyString => acc
  end.

(** [parseInt(text)] without a radix argument; [None] is NaN. *)
Definition parseInt_string (text : string) : option Z :=
  let s := skip_spaces text in
  let '(sign, s) :=
    match s with
    | String "-" s' => ((-1)%Z, s')
    | String "+" s' => (1%Z, s')
    | _ => (1%Z, s)
    end in
  let '(radix, s) :=
    match s with
    | String "0" (String "x" s') => (16%Z, s')
    | String "0" (String "X" s') => (16%Z, s')
    | _ => (10%Z, s)
    end in
  (λ n, sign * n)%Z <$> digits radix None s.

(** [parseInt(v)]: the argument is first turned into a string; a whole
    number below 10^21 prints as its decimal digits. *)
Definition parseInt (v : option ProbeValue) : option Z :=
  match v with
  | None => None
  | Some (PNum n) => Some n
  | Some (PStr s) => parseInt_string s
  end.

(** [x < 8000] where [None] is NaN, which compares false. *)
Definition below_8000 (x : option Z) : bool :=
  match x with
  | Some n => bool_decide (n < 8000)%Z
  | None => false
  end.

(** [detectAudioIssues]: the list of issues, or [None] for [null]. *)
Definition detectAudioIssues (audioStream : AudioStream) : option (list string) :=
  let issues1 :=
    if negb (truthy (channels audioStream)) || is_zero (channels audioStream)
    then ["Invalid channel count (0 channels)"] else [] in
  let issues2 :=
    if truthy (sample_rate audioStream)
       && below_8000 (parseInt (sample_rate audioStream))
    then ["Low sample rate (" +:+ show (sample_rate audioStream)
          +:+ "Hz < 8kHz)"] else [] in
  let issues3 :=
    if negb (truthy (codec_name audioStream))
    then ["Missing audio codec"] else [] in
  let issues := issues1 ++ issues2 ++ issues3 in
  if bool_decide (0 < length issues) then Some issues else None.

(** The [hasIssues] field computed by [analyzeVideo], read as a boolean. *)
Definition needsRepair (audioStream : AudioStream) : bool :=
  bool_decide (is_Some (detectAudioIssues audioStream)).

(** [needsGeminiProcessing] *)
Definition needsGeminiProcessing : bool := true.

(** Modelled from the spec: the rule of section 4.1 on a descriptor with a
    channel count, a sample rate in Hz and an optional codec. *)
Definition needsRepairSpec (channelCount sampleRateHz : Z)
    (codec : option string) : bool :=
  bool_decide (channelCount = 0%Z) || bool_decide (sampleRateHz < 8000)%Z
  || bool_decide (codec = None).

(** The descriptor as the audio stream that ffprobe reports. *)
Definition streamOf (channelCount sampleRateHz : Z) (codec : option string)
    : AudioStream :=
  {| codec_name := PStr <$> codec;
     channels := Some (PNum channelCount);
     sample_rate := Some (PNum sampleRateHz) |}.

(** The files on disk: the content found at each path. *)
Abbreviation files := (gmap string string).

(** How a run of ffmpeg ends: [end] with the written output, or [error],
    after which a partial output may be left behind. *)
Inductive FfmpegRun :=
| FfmpegEnd (output : string)
| FfmpegError (message : string) (partial : option string).

(** [processVideo(inputPath, outputPath, duration)]: [inl] is the message of
    the rejection, [inr] the resolved output path.  ffmpeg reads [inputPath]
    and, with [-y], writes [outputPath]. *)
Definition processVideo (inputPath outputPath : string) (duration : JsValue)
    (run : FfmpegRun) (disk : files) : (string + string) * files :=
  match disk !! inputPath with
  | None => (inl ("Video processing failed: " +:+ inputPath
                  +:+ ": No such file or directory"), disk)
  | Some _ =>
      match run with
      | FfmpegEnd output => (inr outputPath, <[outputPath := output]> disk)
      | FfmpegError message partial =>
          (inl ("Video processing failed: " +:+ message),
           match partial with
           | Some output => <[outputPath := output]> disk
           | None => disk
           end)
      end
  end.

(** The upload handed over by the route. *)
Record Upload := {
  originalname : string;
  path : string;
  size : Z;
  mimetype : string;
}.

(** What ffprobe reports: an error, or the duration and the audio stream. *)
Inductive Probe :=
| ProbeError (message : string)
| ProbeOk (duration : JsValue) (audioStream : option AudioStream).

(** A row of the table [videos]. *)
Record VideoRow := {
  processing_status : string;
  processed_filename : string;
  storage_path : option string;
}.

(** What does not come from the arguments of [processVideoFile]. *)
Record Host := {
  videoId : string;                 (* [uuidv4()] *)
  fileExtension : string;           (* [path.extname(originalFilename)] *)
  processedDir : string;
  probe : Probe;
  run : FfmpegRun;
}.

Record Processed := {
  filePath : string;
  processedFilename : string;
}.

(** [UPDATE videos SET processing_status = 'error' WHERE id = ?] *)
Definition markError (id : string) (db : gmap string VideoRow)
    : gmap string VideoRow :=
  alter (λ r, {| processing_status := "error";
                 processed_filename := processed_filename r;
                 storage_path := storage_path r |}) id db.

(** [processVideoFile]: [inl] is the message of the error thrown again by
    the [catch]. *)
Definition processVideoFile (h : Host) (originalFile : Upload) (disk : files)
    (db : gmap string VideoRow)
    : (string + Processed) * files * gmap string VideoRow :=
  let processedName := videoId h +:+ "_processed" +:+ fileExtension h in
  let originalPath := path originalFile in
  let processedPath := processedDir h +:+ "/" +:+ processedName in
  match disk !! originalPath, probe h with
  | None, _ =>
      (inl ("Failed to analyze video: " +:+ originalPath
            +:+ ": No such file or directory"), disk, markError (videoId h) db)
  | Some _, ProbeError message =>
      (inl ("Failed to analyze video: " +:+ message), disk,
       markError (videoId h) db)
  | Some _, ProbeOk duration audioStream =>
      let db1 :=
        <[videoId h := {| processing_status := "processing";
                          processed_filename := processedName;
                          storage_path := None |}]> db in
      if needsGeminiProcessing then
        match processVideo originalPath processedPath duration (run h) disk with
        | (inl message, disk1) =>
            (inl message, disk1, markError (videoId h) db1)
        | (inr finalPath, disk1) =>
            let db2 :=
              <[videoId h := {| processing_status := "completed";
                                processed_filename := processedName;
                                storage_path := Some finalPath |}]> db1 in
            match disk1 !! originalPath with
            | None =>
                (inl ("ENOENT: no such file or directory, unlink '"
                      +:+ originalPath +:+ "'"), disk1,
                 markError (videoId h) db2)
            | Some _ =>
                (inr {| filePath := finalPath;
                        processedFilename := processedName |},
                 delete originalPath disk1, db2)
            end
        end
      else
        (inr {| filePath := originalPath; processedFilename := processedName |},
         disk,
         <[videoId h := {| processing_status := "completed";
                           processed_filename := processedName;
                           storage_path := Some originalPath |}]> db1)
  end.

(** The claim of section 4.1 on the whole ingest: once [processVideoFile]
    has returned, the upload is still on disk with the content it had. *)
Definition inputPreserved (h : Host) (originalFile : Upload) (disk : files)
    (db : gmap string VideoRow) : Prop :=
  let '(_, disk', _) := processVideoFile h originalFile disk db in
  is_Some (disk !! path originalFile)
  ∧ disk' !! path originalFile = disk !! path originalFile.

End VideoProcessor.

(** ** The command-line repair: src/scripts/preprocess-video.sh *)

Module PreprocessScript.

Import VideoProcessor.

(** The characters of a reversed file name that come before its first dot. *)
Fixpoint beforeDot (reversed : list ascii) : list ascii :=
  match reversed with
  | [] => []
  | c :: rest => if bool_decide (c = "."%char) then [] else c :: beforeDot rest
  end.

(** What follows the last dot of a file name. *)
Definition extensionOf (name : string) : string :=
  string_of_list_ascii (rev (beforeDot (rev (list_ascii_of_string name)))).

(** Extensions from which ffmpeg finds the container of an output for which
    no [-f] is given.  The list of a build is longer; [tmp] is in none. *)
Definition muxerExtensions : list string :=
  ["mp4"; "m4v"; "mov"; "mkv"; "webm"; "avi"; "flv"; "ts"; "3gp"; "ogv";
   "wmv"; "mpg"; "mpeg"].

Definition guessFormat (output : string) : bool :=
  bool_decide (extensionOf output ∈ muxerExtensions).

(** The command of lines 96-102: whether it succeeds, and the files
    afterwards.  Its [-f lavfi] belongs to the second input, so the
    container of the output is found from its name; when none is found, or
    [input_file] is missing, ffmpeg ends with an error before it writes
    anything. *)
Definition ffmpeg (input_file output : string) (run : FfmpegRun)
    (disk : files) : bool * files :=
  if guessFormat output then
    match disk !! input_file with
    | None => (false, disk)
    | Some _ =>
        match run with
        | FfmpegEnd content => (true, <[output := content]> disk)
        | FfmpegError _ partial =>
            (false,
             match partial with
             | Some content => <[output := content]> disk
             | None => disk
             end)
        end
    end
  else (false, disk).

(** [fix_audio_stream input_file output_file duration] under [set -e]: the
    command writes [output_file.tmp], which [mv] then renames; a command
    that fails ends the script.  The boolean tells whether the function
    returned, and the files are those that the script leaves. *)
Definition fix_audio_stream (input_file output_file : string)
    (duration : string) (run : FfmpegRun) (disk : files) : bool * files :=
  let temp_output := output_file +:+ ".tmp" in
  let '(succeeded, written) := ffmpeg input_file temp_output run disk in
  if succeeded then
    match written !! temp_output with
    | Some content =>
        (true, <[output_file := content]> (delete temp_output written))
    | None => (false, written)
    end
  else (false, written).

End PreprocessScript.

(** ** Sample data *)

Module Samples.

Import ApiService Capture.

(** Two payloads saved under the same clock reading. *)
Definition sameMillisecond : Clock :=
  {| Date_now := 1730000000000; toISOString := "2024-10-27T03:33:20.000Z" |}.

Definition firstPayload : obj :=
  <["summary" := JStr "first"]> (<["violations" := JArr []]> ∅).

Definition secondPayload : obj :=
  <["summary" := JStr "second"]> (<["violations" := JArr []]> ∅).

(** A video element that is playing. *)
Definition playing : HTMLVideoElement :=
  {| readyState := 4; currentSrc := "blob:video"; paused := false;
     isConnected := true; videoWidth := 640; videoHeight := 480 |}.


(** The conversion of texts, as far as the samples need it: none of them
    passes a text as a time. *)
Definition emptyTextOnly (s : string) : option Q :=
  if bool_decide (s = "") then Some 0%Q else None.

(** The seek completes and a frame is drawn. *)
Definition frameReady : Browser :=
  {| metadataSignal := LoadedMetadata; seekSignal := Seeked;
     connectedAtExit := true; widthAtFrame := 640; heightAtFrame := 480;
     context2d := true; dataURL := "data:image/jpeg;base64,AAAA";
     stringToNumber := emptyTextOnly |}.

(** The seek completes on an element without dimensions. *)
Definition zeroWidth : Browser :=
  {| metadataSignal := LoadedMetadata; seekSignal := Seeked;
     connectedAtExit := true; widthAtFrame := 0; heightAtFrame := 480;
     context2d := true; dataURL := "";
     stringToNumber := emptyTextOnly |}.


(** The element is removed from the document and the seek times out. *)
Definition detachedTimeout : Browser :=
  {| metadataSignal := LoadedMetadata; seekSignal := SeekTimeout;
     connectedAtExit := false; widthAtFrame := 640; heightAtFrame := 480;
     context2d := true; dataURL := "";
     stringToNumber := emptyTextOnly |}.

(** Three violations; the second one already has a thumbnail. *)
Definition threeViolations : list obj :=
  [ <["description" := JStr "No hard hat"]>
      (<["startTimeSeconds" := JNum 10]> ∅);
    <["description" := JStr "Blocked exit"]>
      (<["startTimeSeconds" := JNum 20]>
         (<["thumbnailDataUrl" := JStr "data:image/jpeg;base64,BBBB"]> ∅));
    <["description" := JStr "Unsecured ladder"]>
      (<["startTimeSeconds" := JNum 30]> ∅) ].

(** The same violations as the entries of the list on display. *)
Definition threeEntries : list JsValue := JObj <$> threeViolations.



(** An analysis without error and with one violation, shown after the file
    input was given a file that is not a video: [handleFileChange] has reset
    [selectedFile] and kept the analysis and the upload details. *)
Definition analysisWithoutFile : Lifecycle.AppState :=
  {| Lifecycle.selectedFile := None;
     Lifecycle.uploadedFileDetails :=
       Some {| Lifecycle.up_name := "site.mp4";
               Lifecycle.up_uri := "https://files/abc";
               Lifecycle.up_videoId := "files/abc";
               Lifecycle.up_mimeType := "video/mp4" |};
     Lifecycle.analysisResult :=
       JObj (<["summary" := JStr "ok"]>
             (<["violations" := JArr (map JObj (take 1 threeViolations))]> ∅));
     Lifecycle.rawGeminiResponse := Some "{}";
     Lifecycle.savedReport := None;
     Lifecycle.selectedReportForViewing := None;
     Lifecycle.operatorComments := "";
     Lifecycle.currentReportStatus := "Pending Review";
     Lifecycle.jsaContext := "";
     Lifecycle.userInstructionPrompt := "" |}.

(** The same analysis with its file. *)
Definition analysisWithFile : Lifecycle.AppState :=
  {| Lifecycle.selectedFile := Some {| Lifecycle.file_name := "site.mp4" |};
     Lifecycle.uploadedFileDetails := Lifecycle.uploadedFileDetails analysisWithoutFile;
     Lifecycle.analysisResult := Lifecycle.analysisResult analysisWithoutFile;
     Lifecycle.rawGeminiResponse := Some "{}";
     Lifecycle.savedReport := None;
     Lifecycle.selectedReportForViewing := None;
     Lifecycle.operatorComments := "";
     Lifecycle.currentReportStatus := "Pending Review";
     Lifecycle.jsaContext := "";
     Lifecycle.userInstructionPrompt := "" |}.

Definition platform : Lifecycle.Platform :=
  {| Lifecycle.clock := sameMillisecond;
     Lifecycle.saveTime := "2024-10-27T03:33:19.600Z";
     Lifecycle.JSON_stringify := λ _, "{}";
     Lifecycle.videoDuration := JNum 20;
     Lifecycle.durationIsFinite := true |}.

(** An upload that ffprobe reads and ffmpeg repairs. *)
Definition upload : VideoProcessor.Upload :=
  {| VideoProcessor.originalname := "site.mp4";
     VideoProcessor.path := "uploads/temp/1f0e_site.mp4";
     VideoProcessor.size := 3;
     VideoProcessor.mimetype := "video/mp4" |}.

Definition host : VideoProcessor.Host :=
  {| VideoProcessor.videoId := "6f1c";
     VideoProcessor.fileExtension := ".mp4";
     VideoProcessor.processedDir := "uploads/processed";
     VideoProcessor.probe :=
       VideoProcessor.ProbeOk (JNum 5)
         (Some (VideoProcessor.streamOf 0 1000 None));
     VideoProcessor.run := VideoProcessor.FfmpegEnd "repaired" |}.

Definition disk : gmap string string :=
  <["uploads/temp/1f0e_site.mp4" := "raw"]> ∅.

End Samples.

(** ** The other queries of the report store, and the project store:
       src/services/apiService.ts *)

Module ReportQueries.

Import ApiService.

(** [Array.prototype.sort] with a comparison function, on a copy of the
    array: the sort is stable, an element goes before the elements it was
    before whenever the comparison is not positive. *)
Fixpoint insertBy {A} (compare : A → A → Z) (x : A) (l : list A) : list A :=
  match l with
  | [] => [x]
  | y :: l' =>
      if bool_decide (compare x y ≤ 0)%Z then x :: y :: l'
      else y :: insertBy compare x l'
  end.

Definition sortBy {A} (compare : A → A → Z) (l : list A) : list A :=
  foldr (insertBy compare) [] l.

(** [new Date(b.analysisDateTime).getTime() -
    new Date(a.analysisDateTime).getTime()], where [getTime] reads a date
    as its milliseconds. *)
Definition newestFirst (getTime : JsValue → Z) (a b : obj) : Z :=
  (getTime (get b "analysisDateTime") - getTime (get a "analysisDateTime"))%Z.

(** [getAllVideoAnalysisReports]: the sorted copy; the store is not
    touched. *)
Definition getAllVideoAnalysisReports (getTime : JsValue → Z)
    (mock : list obj) : list obj :=
  sortBy (newestFirst getTime) mock.

(** [getVideoAnalysisReportsByVideoId]: [filter(r => r.videoId === videoId)]. *)
Definition getVideoAnalysisReportsByVideoId (videoId : JsValue)
    (mock : list obj) : list obj :=
  List.filter (λ r, strict_eq (get r "videoId") videoId) mock.

End ReportQueries.

Module ProjectStore.

Import ApiService.

(** [addProject]: [{ ...projectData, id: `proj-${Date.now()}`,
    status: projectData.status || ProjectStatus.Active }]. *)
Definition addProject (clk : Clock) (projectData : obj) (mockProjects : list obj)
    : obj * list obj :=
  let newProject :=
    <["status" := or_else (get projectData "status") (JStr "Active")]>
      (<["id" := JStr ("proj-" +:+ pretty (Date_now clk))]> projectData) in
  (newProject, mockProjects ++ [newProject]).

(** [updateProject]: as [updateVideoAnalysisReport], on the projects. *)
Definition updateProject (id : JsValue) (updates : obj)
    (mockProjects : list obj) : (string + obj) * list obj :=
  match findIndex (λ p, strict_eq (get p "id") id) mockProjects with
  | None => (inl "Project not found", mockProjects)
  | Some projectIndex =>
      let updated := spread (default ∅ (mockProjects !! projectIndex)) updates in
      (inr updated, <[projectIndex := updated]> mockProjects)
  end.

(** The uploaded file: only its name is read. *)
Record JsaFile := { jsa_file_name : string }.

(** The object [newJSA] of [uploadJSA]. *)
Definition newJSA (clk : Clock) (projectId : string) (file : JsaFile) : obj :=
  <["id" := JStr ("jsa-" +:+ pretty (Date_now clk))]>
  (<["fileName" := JStr (jsa_file_name file)]>
  (<["filePath" := JStr ("/uploads/jsa/" +:+ projectId +:+ "/"
                         +:+ jsa_file_name file)]>
  (<["uploadedAt" := JStr (toISOString clk)]> ∅))).

(** [uploadJSA]: [project.jsa = newJSA] writes into the project found in
    the store, the first one with the id. *)
Definition uploadJSA (clk : Clock) (projectId : string) (file : JsaFile)
    (mockProjects : list obj) : (string + obj) * list obj :=
  match findIndex (λ p, strict_eq (get p "id") (JStr projectId)) mockProjects with
  | None => (inl "Project not found for JSA upload", mockProjects)
  | Some i =>
      let jsa := newJSA clk projectId file in
      (inr jsa,
       <[i := <["jsa" := JObj jsa]> (default ∅ (mockProjects !! i))]> mockProjects)
  end.

End ProjectStore.

(** ** Upload and analysis calls: src/services/geminiService.ts *)

Module GeminiService.

Import Parser.

Definition POLLING_INTERVAL_MS : Z := 5000.
Definition MAX_POLLING_ATTEMPTS : nat := 36.

(** [!API_KEY || API_KEY === "YOUR_GEMINI_API_KEY"]; [None] is an API key
    that is not defined. *)
Definition keyMissing (API_KEY : option string) : bool :=
  match API_KEY with
  | None => true
  | Some k => bool_decide (k = "") || bool_decide (k = "YOUR_GEMINI_API_KEY")
  end.

(** [a || b] on an optional string. *)
Definition orString (a : option string) (b : string) : string :=
  match a with
  | Some s => if bool_decide (s = "") then b else s
  | None => b
  end.

(** The state of the file on the side of the model provider; every state
    other than [ACTIVE] and [FAILED] keeps the loop polling. *)
Inductive FileState := ACTIVE | FAILED | OTHER.

(** What [ai.files.get] returns.  [errorDetails] is the text that the
    [FAILED] branch builds from [currentFileStatus.error], [None] when there
    is no error object. *)
Record FileStatus := {
  state : FileState;
  uri : option string;
  mimeType : option string;
  displayName : option string;
  errorDetails : option string;
}.

(** A value thrown by the SDK: an [Error] with its message, or something
    that is not an [Error]. *)
Inductive Thrown := ErrorObject (message : string) | NotAnError.

(** A call of the SDK returns or throws. *)
Inductive Call (A : Type) := Returns (a : A) | Throws (t : Thrown).
Arguments Returns {A} a.
Arguments Throws {A} t.

Record UploadedInfo := {
  info_uri : string;
  info_mimeType : string;
  info_name : string;
  info_videoId : string;
}.

(** The browser file: its name and its [type]. *)
Record BrowserFile := { name : string; type : string }.

(** The [while (attempts < MAX_POLLING_ATTEMPTS)] loop, with [remaining]
    iterations left; [get attempts] is what [ai.files.get] does on the call
    number [attempts] (from 0).  The result comes with the number of calls
    made. *)
Fixpoint pollLoop (remaining attempts : nat) (get : nat → Call FileStatus)
    (file : BrowserFile) (mimeType0 videoId : string)
    : (Thrown + UploadedInfo) * nat :=
  match remaining with
  | O =>
      (inl (ErrorObject
              ("File did not become ACTIVE after " +:+ pretty MAX_POLLING_ATTEMPTS
               +:+ " attempts. Last state: PROCESSING.")), attempts)
  | S remaining' =>
      match get attempts with
      | Throws t => (inl t, S attempts)
      | Returns currentFileStatus =>
          match state currentFileStatus with
          | ACTIVE =>
              match uri currentFileStatus with
              | Some u =>
                  if bool_decide (u = "")
                  then (inl (ErrorObject "File is ACTIVE but URI is missing."),
                        S attempts)
                  else
                    (inr {| info_uri := u;
                            info_mimeType :=
                              orString (mimeType currentFileStatus) mimeType0;
                            info_name :=
                              orString (displayName currentFileStatus) (name file);
                            info_videoId := videoId |}, S attempts)
              | None =>
                  (inl (ErrorObject "File is ACTIVE but URI is missing."),
                   S attempts)
              end
          | FAILED =>
              (inl (ErrorObject
                      ("File processing failed. State: FAILED. Gemini Error: "
                       +:+ default "No specific error details were provided by Gemini."
                             (errorDetails currentFileStatus))),
               S attempts)
          | OTHER =>
              pollLoop remaining' (S attempts) get file mimeType0 videoId
          end
      end
  end.

(** The [catch] of [uploadVideoFile]: the message of the error thrown to
    the caller. *)
Definition wrapUploadError (t : Thrown) : string :=
  match t with
  | ErrorObject message => "Error uploading/processing video: " +:+ message
  | NotAnError =>
      "An unknown error occurred while uploading or processing the video."
  end.

(** [uploadVideoFile]: [inl] is the message of the thrown error; the number
    is the number of calls of [ai.files.get].  [upload] is what
    [ai.files.upload] does: it returns the [name] of the created resource,
    if any. *)
Definition uploadVideoFile (API_KEY : option string) (file : BrowserFile)
    (upload : Call (option string)) (get : nat → Call FileStatus)
    : (string + UploadedInfo) * nat :=
  if keyMissing API_KEY then
    (inl "API_KEY for Gemini is not configured. File upload cannot be performed.", 0)
  else
    let mimeType0 := orString (Some (type file)) "video/mp4" in
    match upload with
    | Throws t => (inl (wrapUploadError t), 0)
    | Returns resourceName =>
        if bool_decide (orString resourceName "" = "") then
          (inl (wrapUploadError
                  (ErrorObject "File name (resource ID) not found in initial upload response.")), 0)
        else
          let videoId := orString resourceName "" in
          match pollLoop MAX_POLLING_ATTEMPTS 0 get file mimeType0 videoId with
          | (inl t, n) => (inl (wrapUploadError t), n)
          | (inr info, n) => (inr info, n)
          end
    end.

(** What [analyzeUploadedVideo] returns: a text of the model, or the
    serialisation of an object built by the function. *)
Inductive Answer :=
| AnswerText (jsonStr : string)
| Serialised (o : obj).

(** The objects that [analyzeUploadedVideo] serialises. *)
Definition keyMissingAnswer : obj :=
  <["error" := JStr "API_KEY for Gemini is not configured. Video analysis cannot be performed."]> ∅.

Definition callFailedAnswer (t : Thrown) : obj :=
  <["error" := JStr ("Error analyzing video with Gemini: "
                     +:+ match t with
                         | ErrorObject message => message
                         | NotAnError => "An unknown error occurred while analyzing the video with Gemini."
                         end)]>
  (<["summary" := JStr "Failed to analyze video."]>
  (<["safetyScore" := JNum 0]>
  (<["violations" := JArr []]>
  (<["positiveObservations" := JArr []]> ∅)))).

(** [analyzeUploadedVideo].  [generate] is what [ai.models.generateContent]
    does; it returns the text of the answer together with [jsonStr], the
    trimmed text without its code fence, and with what [JSON.parse(jsonStr)]
    does. *)
Definition analyzeUploadedVideo (API_KEY : option string)
    (generate : Call (string * string * DecodeOutcome)) : Answer :=
  if keyMissing API_KEY then Serialised keyMissingAnswer
  else
    match generate with
    | Throws t => Serialised (callFailedAnswer t)
    | Returns (response_text, jsonStr, outcome) =>
        match outcome with
        | Decoded _ => AnswerText jsonStr
        | SyntaxError => Serialised (nonJsonFallback response_text)
        end
    end.

(** The string that the answer is, and what [JSON.parse] does on it: a
    serialised object is decoded to itself, a text of the model parses as it
    did inside [analyzeUploadedVideo]. *)
Definition answerString (JSON_stringify : JsValue → string) (a : Answer) : string :=
  match a with
  | AnswerText jsonStr => jsonStr
  | Serialised o => JSON_stringify (JObj o)
  end.

Definition decodeAnswer (a : Answer) (outcome : DecodeOutcome) : DecodeOutcome :=
  match a with
  | AnswerText _ => outcome
  | Serialised o => Decoded (JObj o)
  end.

End GeminiService.

(** ** The other handlers of [VideoAnalysisFeature]: src/App.tsx *)

Module Session.

Import ApiService Parser GeminiService Lifecycle.

Definition defaultPrompt : string :=
  "Summarize this video focusing on safety. Identify violations and positive practices.".

(** The double quote. *)
Definition quote : string := String "034" EmptyString.

(** The state of the component: the part read by the save handlers, and the
    rest. *)
Record View := {
  app : AppState;
  videoSrc : option string;
  isUploading : bool;
  isAnalyzing : bool;
  isGeneratingThumbnails : bool;
  allSavedReports : list obj;
}.

Record Outcome := {
  shown : list (string * ToastType);   (* the toasts *)
  view : View;
}.

(** [resetFormState(keepHistorySelection)] *)
Definition resetFormState (keepHistorySelection : bool) (s : View) : View :=
  {| app :=
       {| selectedFile := None;
          uploadedFileDetails := None;
          analysisResult := JNull;
          rawGeminiResponse := None;
          savedReport := None;
          selectedReportForViewing :=
            if keepHistorySelection then selectedReportForViewing (app s)
            else None;
          operatorComments := "";
          currentReportStatus := "Pending Review";
          jsaContext := "";
          userInstructionPrompt := defaultPrompt |};
     videoSrc := None;
     isUploading := false;
     isAnalyzing := false;
     isGeneratingThumbnails := false;
     allSavedReports := allSavedReports s |}.

(** The file of the file input, with its [type]. *)
Record PickedFile := { picked : File; file_type : string }.

(** [file.type === "video/mp4" || file.type === "video/webm" ||
    file.type === "video/ogg" || file.type.startsWith("video/")] *)
Definition acceptedType (t : string) : bool :=
  bool_decide (t = "video/mp4") || bool_decide (t = "video/webm")
  || bool_decide (t = "video/ogg") || String.prefix "video/" t.

Definition withFile (f : option File) (src : option string) (s : View) : View :=
  {| app :=
       {| selectedFile := f;
          uploadedFileDetails := uploadedFileDetails (app s);
          analysisResult := analysisResult (app s);
          rawGeminiResponse := rawGeminiResponse (app s);
          savedReport := savedReport (app s);
          selectedReportForViewing := selectedReportForViewing (app s);
          operatorComments := operatorComments (app s);
          currentReportStatus := currentReportStatus (app s);
          jsaContext := jsaContext (app s);
          userInstructionPrompt := userInstructionPrompt (app s) |};
     videoSrc := src;
     isUploading := isUploading s;
     isAnalyzing := isAnalyzing s;
     isGeneratingThumbnails := isGeneratingThumbnails s;
     allSavedReports := allSavedReports s |}.

(** [handleFileChange]; [file] is [event.target.files?.[0]] and [objectURL]
    what [URL.createObjectURL(file)] returns. *)
Definition handleFileChange (file : option PickedFile) (objectURL : string)
    (s : View) : Outcome :=
  match file with
  | None => {| shown := []; view := s |}
  | Some f =>
      if acceptedType (file_type f) then
        {| shown := [];
           view := withFile (Some (picked f)) (Some objectURL)
                     (resetFormState false s) |}
      else
        {| shown := [("Invalid file type. Please select an MP4, WebM, Ogg or other common video file.", error)];
           view := withFile None None s |}
  end.

(** The value of a state variable of type string that is set from a
    property of a report; [VideoAnalysisReport] gives these properties the
    type string. *)
Definition stringState (v : JsValue) : string :=
  match v with
  | JStr s => s
  | _ => ""
  end.

(** [handleSelectReportFromHistory(report)].  The test on the selected file
    at its end reads the state as it was when the handler was called.
    [toText] is the conversion of a value inside a template literal. *)
Definition handleSelectReportFromHistory (toText : JsValue → string)
    (report : obj) (objectURL : string) (s : View) : Outcome :=
  let sameVideo :=
    match selectedFile (app s) with
    | Some f =>
        strict_eq (JStr (file_name f)) (get report "videoFileName")
        && strict_eq
             (match uploadedFileDetails (app s) with
              | Some d => JStr (up_videoId d)
              | None => JUndefined
              end)
             (get report "videoId")
    | None => false
    end in
  {| shown :=
       [("Displaying historical report: "
         +:+ toText (get report "videoFileName"), info)];
     view :=
       {| app :=
            {| selectedFile := None;
               uploadedFileDetails := None;
               analysisResult :=
                 JObj (<["summary" := get report "summary"]>
                       (<["safetyScore" := get report "safetyScore"]>
                       (<["violations" := get report "violations"]>
                       (<["positiveObservations" := get report "positiveObservations"]>
                       (<["rawResponse" := get report "geminiRawResponse"]> ∅)))));
               rawGeminiResponse :=
                 match get report "geminiRawResponse" with
                 | JStr raw => Some raw
                 | _ => None
                 end;
               savedReport := Some report;
               selectedReportForViewing := Some report;
               operatorComments :=
                 stringState (or_else (get report "operatorComments") (JStr ""));
               currentReportStatus := stringState (get report "reportStatus");
               jsaContext := "";
               userInstructionPrompt := defaultPrompt |};
          videoSrc :=
            if sameVideo && bool_decide (orString (videoSrc s) "" = "")
            then Some objectURL else None;
          isUploading := false;
          isAnalyzing := false;
          isGeneratingThumbnails := false;
          allSavedReports := allSavedReports s |} |}.

(** The state at the end of [handleAnalyzeVideo] once it has started. *)
Definition analysed (details : option UploadedFileDetails) (result : JsValue)
    (raw : option string) (s : View) : View :=
  {| app :=
       {| selectedFile := selectedFile (app s);
          uploadedFileDetails := details;
          analysisResult := result;
          rawGeminiResponse := raw;
          savedReport := None;
          selectedReportForViewing := None;
          operatorComments := operatorComments (app s);
          currentReportStatus := currentReportStatus (app s);
          jsaContext := jsaContext (app s);
          userInstructionPrompt := userInstructionPrompt (app s) |};
     videoSrc := videoSrc s;
     isUploading := false;
     isAnalyzing := false;
     isGeneratingThumbnails := isGeneratingThumbnails s;
     allSavedReports := allSavedReports s |}.

(** [{ error: errorMessage, violations: [] }] of the outer [catch], where
    [errorMessage = error?.message || "Failed to upload or analyze video."]. *)
Definition failedResult (message : string) : JsValue :=
  JObj (<["error" := JStr (orString (Some message)
                             "Failed to upload or analyze video.")]>
        (<["violations" := JArr []]> ∅)).

(** [handleAnalyzeVideo].  [apiKeyFromWindow] is
    [window.process?.env?.API_KEY]; [upload] is how [uploadVideoFile] ends
    and [analyze] how [analyzeUploadedVideo] ends (with [inl] the message of
    a thrown error); [outcome] is what [JSON.parse] does on a text of the
    model; [toText] is the conversion of a value inside a template
    literal. *)
Definition handleAnalyzeVideo (apiKeyFromWindow : option string)
    (JSON_stringify toText : JsValue → string) (upload : string + UploadedInfo)
    (analyze : string + Answer) (outcome : DecodeOutcome) (s : View) : Outcome :=
  match selectedFile (app s) with
  | None =>
      {| shown := [("Please select a video file first.", warning)]; view := s |}
  | Some file =>
      if keyMissing apiKeyFromWindow then
        {| shown := [("Gemini API Key is not configured or is a placeholder. Video analysis cannot proceed.", error)];
           view := s |}
      else
        let uploading :=
          ("Uploading video: " +:+ file_name file +:+ "...", info) in
        match upload with
        | inl message =>
            {| shown := [uploading;
                         (orString (Some message)
                            "Failed to upload or analyze video.", error)];
               view := analysed (uploadedFileDetails (app s))
                         (failedResult message) None s |}
        | inr uploadedInfo =>
            let details :=
              {| up_name := info_name uploadedInfo;
                 up_uri := info_uri uploadedInfo;
                 up_videoId := info_videoId uploadedInfo;
                 up_mimeType := info_mimeType uploadedInfo |} in
            let uploaded :=
              ("Video " +:+ quote +:+ info_name uploadedInfo +:+ quote
               +:+ " uploaded successfully. Starting analysis...", success) in
            match analyze with
            | inl message =>
                {| shown := [uploading; uploaded;
                             (orString (Some message)
                                "Failed to upload or analyze video.", error)];
                   view := analysed (Some details) (failedResult message) None s |}
            | inr answer =>
                let geminiJsonString := answerString JSON_stringify answer in
                let decoded := decodeAnswer answer outcome in
                let result := parseAnalysisResponse geminiJsonString decoded in
                {| shown :=
                     [uploading; uploaded;
                      match decoded with
                      | SyntaxError =>
                          ("Failed to parse analysis result from Gemini.", error)
                      | Decoded parsed =>
                          match read parsed "error" with
                          | None =>
                              ("Failed to parse analysis result from Gemini.", error)
                          | Some e =>
                              if truthy e then
                                ("Analysis Error: " +:+ toText e, error)
                              else
                                ("Video analysis complete! Generating event thumbnails...", success)
                          end
                      end];
                   view := analysed (Some details) result
                             (Some geminiJsonString) s |}
            end
        end
  end.

End Session.

(** ** The end of [generateAllThumbnails]: src/App.tsx *)

Module BinderReport.

Import Binder Lifecycle.

(** [violations.filter(v => !v.hasOwnProperty('thumbnailDataUrl'))] of line
    326.  [None]: the call throws on one of the entries, which ends the
    effect before [generateAllThumbnails] is called. *)
Definition violationsWithoutThumbnails (violations : list JsValue)
    : option (list JsValue) :=
  if forallb answers violations
  then Some (List.filter lacksThumbnail violations)
  else None.



End BinderReport.

(** ** The effect that starts [generateAllThumbnails]: src/App.tsx *)

Module ThumbnailEffect.

Import Capture Binder BinderReport.

Definition HAVE_CURRENT_DATA : Z := 2.

(** What ends the wait of lines 401-417, on a player without metadata:
    [canplaythrough] or [loadeddata], or [error]. *)
Inductive PlayerSignal := CanPlay | PlayerError.

(** The player when [loadeddata] fires: it has the data of the current
    frame at least, and the code only asks for its metadata. *)
Definition withData (p : HTMLVideoElement) : HTMLVideoElement :=
  {| readyState := HAVE_CURRENT_DATA; currentSrc := currentSrc p;
     paused := paused p; isConnected := isConnected p;
     videoWidth := videoWidth p; videoHeight := videoHeight p |}.

(** [videoSrc] is truthy. *)
Definition shown (videoSrc : option string) : bool :=
  match videoSrc with
  | Some src => negb (bool_decide (src = ""))
  | None => false
  end.

(** What a run of the effect does. *)
Inductive EffectRun :=
| Idle               (* nothing is started *)
| FilterThrows       (* line 326 throws *)
| PlayerFailed       (* the listener of [error], line 408: nothing is generated *)
| Started (run : option Loop).   (* [generateAllThumbnails] was called *)


(** The body of the effect, lines 321-420.  [violations] are the violations
    on display, an array as their declared type says, of any values.  The
    test of line 399,
    [readyState >= HAVE_CURRENT_DATA || readyState >= HAVE_METADATA], asks
    for the metadata. *)
Definition thumbnailEffect (browser : nat → Browser) (signal : PlayerSignal)
    (metadataLoaded : bool) (violations : list JsValue)
    (videoSrc : option string) (currentVideoPlayer : option HTMLVideoElement)
    : EffectRun :=
  match currentVideoPlayer with
  | Some p =>
      if bool_decide (0 < length violations) && shown videoSrc then
        match violationsWithoutThumbnails violations with
        | None => FilterThrows
        | Some pending =>
            if bool_decide (0 < length pending) then
              if bool_decide (HAVE_METADATA ≤ readyState p)%Z then
                Started (generateAllThumbnails browser metadataLoaded
                           (Some p) violations)
              else
                match signal with
                | CanPlay =>
                    Started (generateAllThumbnails browser metadataLoaded
                               (Some (withData p)) violations)
                | PlayerError => PlayerFailed
                end
            else Idle
        end
      else Idle
  | None => Idle
  end.


End ThumbnailEffect.

(** ** When [captureFrameAtTime] reaches [proceedWithCapture] *)

Module CaptureFacts.

Import Capture.

(** The element has its metadata when [captureFrameAtTime] is called. *)
Definition direct (v : HTMLVideoElement) : Prop :=
  (HAVE_METADATA ≤ readyState v)%Z.

(** The element has a source to wait for, and its metadata arrive before
    the 5000 ms timer. *)
Definition awaited (v : HTMLVideoElement) (b : Browser) : Prop :=
  (readyState v < HAVE_METADATA)%Z
  ∧ ¬ (readyState v = HAVE_NOTHING ∧ currentSrc v = "")
  ∧ metadataSignal b = LoadedMetadata.

(** [proceedWithCapture] is called. *)
Definition proceeds (v : HTMLVideoElement) (b : Browser) : Prop :=
  direct v ∨ awaited v b.

(** The operand of the assignment to [currentTime] is a finite number. *)
Definition finite (timeSeconds : JsValue) (b : Browser) : Prop :=
  is_Some (toNumber (stringToNumber b) timeSeconds).

(** How the promise is settled by the handler that ends the wait for the
    seek. *)
Definition seekOutcome (b : Browser) : Settled :=
  match seekSignal b with
  | Seeked =>
      if bool_decide (widthAtFrame b = 0%Z) || bool_decide (heightAtFrame b = 0%Z)
      then Resolved None
      else if context2d b then Resolved (Some (dataURL b)) else Resolved None
  | MediaError => Rejected "Video seeking error during frame capture."
  | SeekTimeout => Rejected "Timeout during frame capture seeking."
  end.

End CaptureFacts.

(** ** Stored videos: [getVideoPath] and [deleteVideo] of
       src/backend/src/services/videoProcessor.js, and the checks that
       [POST /api/analysis/analyze] makes before it analyses a video
       (src/backend/src/routes/analysis.js) *)

Module VideoStore.

Import VideoProcessor.

(** [getVideoPath]: the [storage_path] of the row, [None] for [null]. *)
Definition getVideoPath (id : string) (db : gmap string VideoRow)
    : option string :=
  db !! id ≫= storage_path.

(** [deleteVideo]: [inl] is the message of the thrown error.  The file is
    removed when the row has a [storage_path] and [fs.access] finds it. *)
Definition deleteVideo (id : string) (disk : files) (db : gmap string VideoRow)
    : (string + unit) * files * gmap string VideoRow :=
  match db !! id with
  | None => (inl "Video not found", disk, db)
  | Some video =>
      let disk' :=
        match storage_path video with
        | Some p =>
            if negb (bool_decide (p = "")) && bool_decide (is_Some (disk !! p))
            then delete p disk else disk
        | None => disk
        end in
      (inr (), disk', delete id db)
  end.

(** The checks at the start of the analysis route: [inl] is the status code
    and the message of the refusal, [inr] the path of the file that will be
    analysed. *)
Definition analysablePath (id : string) (db : gmap string VideoRow)
    : (Z * string) + string :=
  match db !! id with
  | None => inl (404%Z, "Video not found")
  | Some video =>
      if negb (bool_decide (processing_status video = "completed"))
      then inl (400%Z, "Video is still being processed")
      else
        match getVideoPath id db with
        | Some p =>
            if bool_decide (p = "") then inl (404%Z, "Video file not found")
            else inr p
        | None => inl (404%Z, "Video file not found")
        end
  end.

End VideoStore.

(** ** The analysis route: src/backend/src/routes/analysis.js *)

Module AnalysisRoute.

(** [text.match(/\{[\s\S]*\}/)]: the text from its first opening brace to
    its last closing brace, when the one comes before the other. *)
Fixpoint fromFirstBrace (s : string) : option string :=
  match s with
  | EmptyString => None
  | String c s' =>
      if bool_decide (c = "{"%char) then Some s else fromFirstBrace s'
  end.

Fixpoint upToLastBrace (s : string) : option string :=
  match s with
  | EmptyString => None
  | String c s' =>
      match upToLastBrace s' with
      | Some t => Some (String c t)
      | None =>
          if bool_decide (c = "}"%char) then Some (String c EmptyString)
          else None
      end
  end.

Definition jsonMatch (text : string) : option string :=
  fromFirstBrace text ≫= upToLastBrace.

(** The character occurs in the text. *)
Fixpoint occurs (c : ascii) (s : string) : bool :=
  match s with
  | EmptyString => false
  | String c' s' => bool_decide (c' = c) || occurs c s'
  end.

(** The tables of src/unnamed/part_001, with the columns that the routes
    write; a column holds the value that was bound to it.  The foreign keys
    are declared but not enforced, the connection never turns them on. *)
Record ReportRow := {
  rep_video_id : string;
  rep_status : string;
  rep_raw : option string;
  rep_summary : JsValue;
  rep_safety_score : JsValue;
  rep_error : option string;
}.

Record ViolationRow := {
  viol_id : string;
  viol_report_id : string;
  viol_description : JsValue;
  viol_severity : JsValue;
  viol_start : JsValue;
  viol_end : JsValue;
  viol_duration : JsValue;
  viol_on_screen_start : JsValue;
  viol_on_screen_end : JsValue;
  viol_thumbnail_path : option string;
}.

Record ObservationRow := {
  obs_id : string;
  obs_report_id : string;
  obs_observation : JsValue;
}.

Record MetadataRow := {
  meta_id : string;
  meta_report_id : string;
  meta_operator_comments : option string;
  meta_report_status : string;
  meta_jsa_context : option string;
  meta_user_instructions : option string;
  meta_tags : option string;
}.

Record Db := {
  analysis_reports : gmap string ReportRow;
  violations : list ViolationRow;
  positive_observations : list ObservationRow;
  report_metadata : list MetadataRow;
}.

(** The identifiers drawn with [uuidv4()]. *)
Record Ids := {
  violationId : nat → string;
  observationId : nat → string;
  metadataId : string;
}.

(** [generateThumbnail] for the violation at each position: [true] when
    ffmpeg writes the image, [false] when it fails. *)
Definition Thumbnails := nat → bool.

(** The [catch] of the analysis: the report is marked as failed. *)
Definition markFailed (reportId message : string) (db : Db) : Db :=
  {| analysis_reports :=
       alter (λ r, {| rep_video_id := rep_video_id r; rep_status := "error";
                      rep_raw := rep_raw r; rep_summary := rep_summary r;
                      rep_safety_score := rep_safety_score r;
                      rep_error := Some message |})
         reportId (analysis_reports db);
     violations := violations db;
     positive_observations := positive_observations db;
     report_metadata := report_metadata db |}.

(** [a || null] on an optional text. *)
Definition orNull (a : option string) : option string :=
  match a with
  | Some s => if bool_decide (s = "") then None else Some s
  | None => None
  end.

(** What the call of the model does.  Line 124 calls
    [genAI.getGenerativeModel], a method that the class [GoogleGenAI] of the
    declared package [@google/genai] does not have: the call throws a
    TypeError, whose message is the engine's ("genAI.getGenerativeModel is
    not a function" under Node), and the rest of the [try] block, from the
    answer of the model to the rows of the violations, is never run. *)
Inductive ModelCall :=
| ModelThrows (message : string).

(** [POST /api/analysis/analyze] from the insertion of the report on, lines
    67-269, once the checks on the video have passed: the status code of the
    response and the tables afterwards.  [readError] is the error of
    [fs.readFile] on the video, if it throws.  An identifier that the table
    of reports already has makes the insertion throw, to the outer [catch].
    The context and the instructions of the request go into the prompt; the
    working directory, the identifiers of the rows and the thumbnails
    belong to the part of the [try] block that is never reached. *)
Definition analyze (reportId videoId cwd : string) (ids : Ids)
    (jsaContext userInstructions : option string)
    (readError : option string) (call : ModelCall) (thumbnails : Thumbnails)
    (db : Db) : Z * Db :=
  match analysis_reports db !! reportId with
  | Some _ => (500%Z, db)
  | None =>
      let db0 :=
        {| analysis_reports :=
             <[reportId :=
                 {| rep_video_id := videoId; rep_status := "processing";
                    rep_raw := None; rep_summary := JNull;
                    rep_safety_score := JNull; rep_error := None |}]>
               (analysis_reports db);
           violations := violations db;
           positive_observations := positive_observations db;
           report_metadata := report_metadata db |} in
      match readError with
      | Some message => (500%Z, markFailed reportId message db0)
      | None =>
          match call with
          | ModelThrows message => (500%Z, markFailed reportId message db0)
          end
      end
  end.

End AnalysisRoute.

(** ** The report routes: src/backend/src/routes/reports.js *)

Module ReportRoutes.

Import AnalysisRoute.

(** [DELETE /api/reports/:reportId] *)
Definition deleteReport (reportId : string) (db : Db) : Z * Db :=
  match analysis_reports db !! reportId with
  | None => (404%Z, db)
  | Some _ =>
      (200%Z,
       {| analysis_reports := delete reportId (analysis_reports db);
          violations :=
            List.filter (λ r, negb (bool_decide (viol_report_id r = reportId)))
              (violations db);
          positive_observations :=
            List.filter (λ r, negb (bool_decide (obs_report_id r = reportId)))
              (positive_observations db);
          report_metadata :=
            List.filter (λ r, negb (bool_decide (meta_report_id r = reportId)))
              (report_metadata db) |})
  end.

(** The body of [PUT /api/reports/:reportId], for a body whose properties
    are texts, after the sanitizers; [None] is a property that the body
    does not have. *)
Record UpdateBody := {
  body_operatorComments : option string;
  body_reportStatus : option string;
  body_tags : option string;
}.

Definition allowedStatus : list string :=
  ["pending_review"; "reviewed"; "action_required"; "resolved"].

(** [body('reportStatus').optional().isIn([...])] *)
Definition validStatus (body : UpdateBody) : bool :=
  match body_reportStatus body with
  | Some s => bool_decide (s ∈ allowedStatus)
  | None => true
  end.

(** [PUT /api/reports/:reportId] *)
Definition updateReport (reportId : string) (body : UpdateBody) (db : Db)
    : Z * Db :=
  if negb (validStatus body) then (400%Z, db)
  else
    match analysis_reports db !! reportId with
    | None => (404%Z, db)
    | Some _ =>
        (200%Z,
         {| analysis_reports := analysis_reports db;
            violations := violations db;
            positive_observations := positive_observations db;
            report_metadata :=
              map (λ r,
                     if bool_decide (meta_report_id r = reportId) then
                       {| meta_id := meta_id r;
                          meta_report_id := meta_report_id r;
                          meta_operator_comments :=
                            orNull (body_operatorComments body);
                          meta_report_status :=
                            GeminiService.orString (body_reportStatus body)
                              "pending_review";
                          meta_jsa_context := meta_jsa_context r;
                          meta_user_instructions := meta_user_instructions r;
                          meta_tags := orNull (body_tags body) |}
                     else r)
                (report_metadata db) |})
    end.

End ReportRoutes.

Module MoreSamples.

Import ApiService.

(** A store with one report, and two sets of updates. *)
Definition oneReport : list obj :=
  (addVideoAnalysisReport Samples.sameMillisecond Samples.firstPayload []).2.

Definition reviewed : obj := <["reportStatus" := JStr "Reviewed"]> ∅.

Definition commented : obj :=
  <["operatorComments" := JStr "Briefed the crew"]>
    (<["reportStatus" := JStr "Closed"]> ∅).

(** Statuses of an uploaded file: still processing, and active. *)
Definition processing : GeminiService.FileStatus :=
  {| GeminiService.state := GeminiService.OTHER; GeminiService.uri := None;
     GeminiService.mimeType := None; GeminiService.displayName := None;
     GeminiService.errorDetails := None |}.

Definition active : GeminiService.FileStatus :=
  {| GeminiService.state := GeminiService.ACTIVE;
     GeminiService.uri := Some "https://files/abc";
     GeminiService.mimeType := Some "video/mp4";
     GeminiService.displayName := None;
     GeminiService.errorDetails := None |}.

(** The file becomes active at the third request. *)
Definition activeAtThird (j : nat) : GeminiService.Call GeminiService.FileStatus :=
  GeminiService.Returns (if bool_decide (j < 2) then processing else active).

Definition siteVideo : GeminiService.BrowserFile :=
  {| GeminiService.name := "site.mp4"; GeminiService.type := "video/mp4" |}.

(** The state after an analysis during which the call of the model failed. *)
Definition afterFailedCall : Lifecycle.AppState :=
  {| Lifecycle.selectedFile := Some {| Lifecycle.file_name := "site.mp4" |};
     Lifecycle.uploadedFileDetails :=
       Lifecycle.uploadedFileDetails Samples.analysisWithoutFile;
     Lifecycle.analysisResult :=
       Parser.parseAnalysisResponse "{}"
         (Parser.Decoded
            (JObj (GeminiService.callFailedAnswer
                     (GeminiService.ErrorObject "quota"))));
     Lifecycle.rawGeminiResponse := Some "{}";
     Lifecycle.savedReport := None;
     Lifecycle.selectedReportForViewing := None;
     Lifecycle.operatorComments := "";
     Lifecycle.currentReportStatus := "Pending Review";
     Lifecycle.jsaContext := "";
     Lifecycle.userInstructionPrompt := "" |}.

(** The page after the analysis of [Samples.analysisWithFile]. *)
Definition analysedView : Session.View :=
  {| Session.app := Samples.analysisWithFile;
     Session.videoSrc := Some "blob:0";
     Session.isUploading := false;
     Session.isAnalyzing := false;
     Session.isGeneratingThumbnails := false;
     Session.allSavedReports := oneReport |}.

(** The report of [oneReport], with a status. *)
Definition storedReport : obj :=
  <["reportStatus" := JStr "Pending Review"]>
    (addVideoAnalysisReport Samples.sameMillisecond Samples.firstPayload []).1.

(** The tables after the analysis of one video, and the identifiers drawn
    by the next analysis. *)
Definition reportTables : AnalysisRoute.Db :=
  {| AnalysisRoute.analysis_reports :=
       {[ "report-1" :=
            {| AnalysisRoute.rep_video_id := "video-1";
               AnalysisRoute.rep_status := "completed";
               AnalysisRoute.rep_raw := Some "{}";
               AnalysisRoute.rep_summary := JStr "Calm site";
               AnalysisRoute.rep_safety_score := JNum 90;
               AnalysisRoute.rep_error := None |} ]};
     AnalysisRoute.violations :=
       [{| AnalysisRoute.viol_id := "violation-a";
           AnalysisRoute.viol_report_id := "report-1";
           AnalysisRoute.viol_description := JStr "No helmet";
           AnalysisRoute.viol_severity := JStr "High";
           AnalysisRoute.viol_start := JNum 1;
           AnalysisRoute.viol_end := JNum 2;
           AnalysisRoute.viol_duration := JNum 1;
           AnalysisRoute.viol_on_screen_start := JNull;
           AnalysisRoute.viol_on_screen_end := JNull;
           AnalysisRoute.viol_thumbnail_path := None |}];
     AnalysisRoute.positive_observations :=
       [{| AnalysisRoute.obs_id := "observation-a";
           AnalysisRoute.obs_report_id := "report-1";
           AnalysisRoute.obs_observation := JStr "Tidy walkways" |}];
     AnalysisRoute.report_metadata :=
       [{| AnalysisRoute.meta_id := "metadata-1";
           AnalysisRoute.meta_report_id := "report-1";
           AnalysisRoute.meta_operator_comments := None;
           AnalysisRoute.meta_report_status := "resolved";
           AnalysisRoute.meta_jsa_context := None;
           AnalysisRoute.meta_user_instructions := None;
           AnalysisRoute.meta_tags := Some "night shift" |}] |}.

Definition nextIds : AnalysisRoute.Ids :=
  {| AnalysisRoute.violationId := λ i, "violation-" +:+ pretty i;
     AnalysisRoute.observationId := λ i, "observation-" +:+ pretty i;
     AnalysisRoute.metadataId := "metadata-2" |}.

(** An update that only carries a comment. *)
Definition commentOnly : ReportRoutes.UpdateBody :=
  {| ReportRoutes.body_operatorComments := Some "Briefed the crew";
     ReportRoutes.body_reportStatus := None;
     ReportRoutes.body_tags := None |}.

End MoreSamples.

(** * Properties *)

(** ** Arrays *)

Section arrays.
Context {A : Type} (p : A → bool).

Lemma findIndex_Some (l : list A) i :
  findIndex p l = Some i →
  ∃ x, l !! i = Some x ∧ p x = true
       ∧ ∀ j y, j < i → l !! j = Some y → p y = false.
Proof.
  revert i. induction l as [|a l IH]; intros i; simpl; [done|].
  destruct (p a) eqn:Hp.
  - intros [= <-]. exists a. split_and!; [done..|]. intros j y Hj. lia.
  - destruct (findIndex p l) as [n|] eqn:Hf; simpl; [|done].
    intros [= <-]. destruct (IH n eq_refl) as (x & Hx & Hpx & Hlt).
    exists x. split_and!; [done..|].
    intros [|j] y Hj Hy; simpl in Hy.
    + by simplify_eq.
    + apply (Hlt j); [lia|done].
Qed.

Lemma findIndex_None (l : list A) :
  findIndex p l = None ↔ ∀ x, x ∈ l → p x = false.
Proof.
  induction l as [|a l IH]; simpl.
  - split; [|done]. intros _ x Hx. by apply elem_of_nil in Hx.
  - destruct (p a) eqn:Hp.
    + split; [done|]. intros H. rewrite (H a) in Hp; [done|]. left.
    + destruct (findIndex p l) eqn:Hf; simpl.
      * split; [done|]. intros H.
        destruct IH as [_ IH]. discriminate IH.
        intros x Hx. apply H. by right.
      * split; [|done]. intros _ x Hx.
        apply elem_of_cons in Hx as [->|Hx]; [done|].
        destruct IH as [IH _]. by apply IH.
Qed.

Lemma find_none_app (l : list A) x :
  (∀ y, y ∈ l → p y = false) → p x = true → List.find p (l ++ [x]) = Some x.
Proof.
  induction l as [|a l IH]; simpl; intros Hl Hx.
  - by rewrite Hx.
  - rewrite (Hl a); [|left]. apply IH; [|done].
    intros y Hy. apply Hl. by right.
Qed.

End arrays.

(** ** The report store *)

Section store.
Import ApiService Samples.

Lemma new_report_id clk reportData mock :
  get (addVideoAnalysisReport clk reportData mock).1 "id" = JStr (new_id clk).
Proof.
  unfold get; simpl. by rewrite lookup_insert_ne, lookup_insert_eq.
Qed.

Lemma new_report_field clk reportData mock k :
  k ≠ "id" → k ≠ "analysisDateTime" →
  get (addVideoAnalysisReport clk reportData mock).1 k = get reportData k.
Proof.
  intros H1 H2. unfold get; simpl. by rewrite !lookup_insert_ne.
Qed.

Lemma strict_eq_str s : strict_eq (JStr s) (JStr s) = true.
Proof. simpl. by apply bool_decide_eq_true. Qed.

(** C9. [addVideoAnalysisReport] stores the time read from the clock during
    the call as [analysisDateTime], whatever [analysisDateTime] the payload
    carries: the stored report is the last element of the store, the result
    does not depend on the date supplied by the caller, and there are
    payloads whose date differs from the stored one. *)
Theorem addVideoAnalysisReport_date_is_current clk reportData supplied mock :
  let '(stored, mock') := addVideoAnalysisReport clk reportData mock in
  last mock' = Some stored
  ∧ get stored "analysisDateTime" = JStr (toISOString clk)
  ∧ addVideoAnalysisReport clk (<["analysisDateTime" := supplied]> reportData) mock
    = (stored, mock')
  ∧ ∃ other : obj,
      get (addVideoAnalysisReport clk other mock).1 "analysisDateTime"
      ≠ get other "analysisDateTime".
Proof.
  simpl. split_and!.
  - by rewrite last_snoc.
  - unfold get. by rewrite lookup_insert_eq.
  - unfold addVideoAnalysisReport.
    assert (<["analysisDateTime":=JStr (toISOString clk)]>
              (<["id":=JStr (new_id clk)]>
                 (<["analysisDateTime":=supplied]> reportData))
            = <["analysisDateTime":=JStr (toISOString clk)]>
                (<["id":=JStr (new_id clk)]> reportData)) as ->; [|done].
    rewrite (insert_insert_ne reportData "id" "analysisDateTime") by done.
    by rewrite insert_insert_eq.
  - exists ∅. unfold get; simpl. by rewrite lookup_insert_eq, lookup_empty.
Qed.

(** C8, as stated, fails: when a second report is added while [Date.now()]
    still returns the value that named the first one, both get the same id
    and the fetch by that id returns the first report, whose summary is not
    the one of the second payload. *)
Lemma roundTrip_fails_on_id_collision :
  ¬ roundTrip sameMillisecond secondPayload
      (addVideoAnalysisReport sameMillisecond firstPayload []).2.
Proof.
  unfold roundTrip. intros (fetched & Hget & _ & Hsum & _).
  vm_compute in Hget. injection Hget as <-.
  vm_compute in Hsum. discriminate Hsum.
Qed.

(** C8, amended. When no report of the store carries the id generated by the
    call, the report fetched by the returned id is the report just created,
    and its violations, summary and score are those of the payload. *)
Theorem roundTrip_fresh_id clk reportData mock :
  (∀ r, r ∈ mock → strict_eq (get r "id") (JStr (new_id clk)) = false) →
  roundTrip clk reportData mock
  ∧ getVideoAnalysisReportById (JStr (new_id clk))
      (addVideoAnalysisReport clk reportData mock).2
    = Some (addVideoAnalysisReport clk reportData mock).1.
Proof.
  intros Hfresh.
  pose proof (new_report_id clk reportData mock) as Hid.
  assert (Hfind : getVideoAnalysisReportById (JStr (new_id clk))
            (addVideoAnalysisReport clk reportData mock).2
          = Some (addVideoAnalysisReport clk reportData mock).1).
  { unfold getVideoAnalysisReportById. simpl.
    apply find_none_app; [done|].
    simpl in Hid. rewrite Hid. apply strict_eq_str. }
  split; [|done].
  unfold roundTrip.
  destruct (addVideoAnalysisReport clk reportData mock) as [newReport mock'] eqn:Hadd.
  simpl in *. exists newReport. rewrite Hid. split; [done|].
  replace newReport with (addVideoAnalysisReport clk reportData mock).1
    by (by rewrite Hadd).
  by rewrite !new_report_field.
Qed.

Lemma roundTrip_fresh_id_witness :
  roundTrip sameMillisecond firstPayload []
  ∧ getVideoAnalysisReportById (JStr (new_id sameMillisecond))
      (addVideoAnalysisReport sameMillisecond firstPayload []).2
    = Some (addVideoAnalysisReport sameMillisecond firstPayload []).1.
Proof.
  apply (roundTrip_fresh_id sameMillisecond firstPayload []).
  intros r Hr. by apply elem_of_nil in Hr.
Defined.

Lemma lookup_spread (original updates : obj) k :
  spread original updates !! k
  = match updates !! k with Some v => Some v | None => original !! k end.
Proof.
  unfold spread. destruct (updates !! k) as [v|] eqn:Hk.
  - by apply lookup_union_Some_l.
  - by rewrite lookup_union_r.
Qed.


(** C10. [updateVideoAnalysisReport] on an id that no report of the store
    carries returns the error and leaves the store as it is.  On an id that
    is present, the first report with that id is replaced by itself
    overwritten with the properties of [updates]: a property of [updates]
    wins, every other property, [analysisDateTime] included, keeps its
    value; the store keeps its length and all other positions.  An id that
    is a text is present exactly when a report of the store has that text
    as its [id]. *)
Theorem updateVideoAnalysisReport_spec id updates mock :
  (∀ s, present (JStr s) mock ↔ ∃ r, r ∈ mock ∧ get r "id" = JStr s)
  ∧ (¬ present id mock →
     updateVideoAnalysisReport id updates mock
     = (inl "Report not found for update.", mock))
  ∧ (present id mock →
     ∃ i original updated mock',
       mock !! i = Some original
       ∧ strict_eq (get original "id") id = true
       ∧ updateVideoAnalysisReport id updates mock = (inr updated, mock')
       ∧ (∀ k, updated !! k
               = match updates !! k with
                 | Some v => Some v
                 | None => original !! k
                 end)
       ∧ (updates !! "analysisDateTime" = None →
          get updated "analysisDateTime" = get original "analysisDateTime")
       ∧ mock' !! i = Some updated
       ∧ length mock' = length mock
       ∧ ∀ j, j ≠ i → mock' !! j = mock !! j).
Proof.
  unfold updateVideoAnalysisReport, present. split_and!.
  - intros s. split.
    + intros (r & Hr & Hid). exists r. split; [done|].
      destruct (get r "id"); try done. simpl in Hid.
      by apply bool_decide_eq_true in Hid as ->.
    + intros (r & Hr & Hid). exists r. split; [done|]. rewrite Hid. simpl.
      by apply bool_decide_eq_true.
  - intros Hno.
    destruct (findIndex _ mock) as [i|] eqn:Hf; [|done].
    apply findIndex_Some in Hf as (x & Hx & Hpx & _).
    destruct Hno. exists x. split; [|done].
    apply list_elem_of_lookup. eauto.
  - intros (r & Hr & Hid).
    destruct (findIndex _ mock) as [i|] eqn:Hf.
    + apply findIndex_Some in Hf as (x & Hx & Hpx & _).
      exists i, x, (spread x updates), (<[i := spread x updates]> mock).
      rewrite Hx. simpl. split_and!; try done.
      * apply lookup_spread.
      * intros Hnone. unfold get. by rewrite lookup_spread, Hnone.
      * apply list_lookup_insert_eq. by eapply lookup_lt_Some.
      * apply length_insert.
      * intros j Hj. by apply list_lookup_insert_ne.
    + rewrite findIndex_None in Hf. rewrite (Hf r Hr) in Hid. done.
Qed.

End store.

Lemma updateVideoAnalysisReport_spec_witness :
  ApiService.updateVideoAnalysisReport (JStr "var-0") MoreSamples.commented
    MoreSamples.oneReport
  = (inl "Report not found for update.", MoreSamples.oneReport)
  ∧ ∃ i original updated mock',
      MoreSamples.oneReport !! i = Some original
      ∧ ApiService.updateVideoAnalysisReport (JStr "var-1730000000000")
          MoreSamples.commented MoreSamples.oneReport
        = (inr updated, mock')
      ∧ get updated "operatorComments" = JStr "Briefed the crew"
      ∧ get updated "reportStatus" = JStr "Closed"
      ∧ get updated "summary" = get original "summary"
      ∧ get updated "analysisDateTime" = get original "analysisDateTime"
      ∧ mock' = [updated].
Proof.
  destruct (updateVideoAnalysisReport_spec (JStr "var-0") MoreSamples.commented
              MoreSamples.oneReport) as (Hpresent & Habsent & _).
  destruct (updateVideoAnalysisReport_spec (JStr "var-1730000000000")
              MoreSamples.commented MoreSamples.oneReport)
    as (Hstored & _ & Hfound).
  split.
  - apply Habsent. intros (r & Hr & Hid)%Hpresent.
    apply list_elem_of_singleton in Hr as ->. vm_compute in Hid.
    discriminate Hid.
  - destruct Hfound
      as (i & original & updated & mock' & Hi & _ & Hrun & Hkeys & Hdate
          & Hat & Hlen & _).
    { apply Hstored. eexists. split; [by left|]. by vm_compute. }
    exists i, original, updated, mock'.
    assert (Hget : ∀ k, get updated k
                        = match MoreSamples.commented !! k with
                          | Some v => v
                          | None => get original k
                          end).
    { intros k. unfold get. rewrite Hkeys. by destruct (_ !! k). }
    split_and!;
      first [ done | by rewrite Hget | by apply Hdate | idtac ].
    destruct mock' as [|r [|r' mock']]; try done.
    destruct i; [|by destruct i]. by injection Hat as ->.
Defined.

(** ** Decoding the answer of the model *)

Section parser.
Import Parser.




End parser.

(** ** Frame capture *)

Section capture.
Import Capture CaptureFacts.

Lemma proceedWithCapture_settled caller v timeSeconds b t :
  toNumber (stringToNumber b) timeSeconds = Some t →
  settled (proceedWithCapture caller v timeSeconds b) = seekOutcome b.
Proof.
  intros Ht. unfold proceedWithCapture, seekOutcome, resume, observe, pause.
  rewrite Ht.
  destruct (negb (paused v)); simpl;
    destruct (seekSignal b); simpl; repeat case_match; simplify_eq/=; done.
Qed.

(** C6. When the seek completes and the element reports a width or a height
    of zero, [captureFrameAtTime] resolves to [null]: the promise is not
    rejected, on an element that is present or absent, with or without a wait
    for metadata.  The time is a number, as its declared type says. *)
Theorem captureFrameAtTime_zero_dimension videoElement timeSeconds b :
  seekSignal b = Seeked →
  widthAtFrame b = 0%Z ∨ heightAtFrame b = 0%Z →
  captureFrameAtTime videoElement timeSeconds b = Resolved None.
Proof.
  intros Hseek Hzero.
  assert (Hp : ∀ caller v,
    settled (proceedWithCapture caller v (JNum timeSeconds) b) = Resolved None).
  { intros caller v.
    rewrite (proceedWithCapture_settled caller v (JNum timeSeconds) b
               timeSeconds eq_refl).
    unfold seekOutcome. rewrite Hseek.
    rewrite (proj2 (orb_true_iff _ _)); [done|].
    destruct Hzero as [H|H]; [left|right]; by apply bool_decide_eq_true. }
  unfold captureFrameAtTime, captureFrameAt, captureOnElement.
  destruct videoElement as [v|]; [|done].
  repeat case_match; by rewrite ?Hp.
Qed.

(** A call that differs from every call of an explicit list is not in it. *)
Ltac not_among :=
  let H := fresh in
  intros H;
  repeat (apply elem_of_cons in H as [H|H]; [discriminate H|]);
  by apply elem_of_nil in H.

Lemma proceedWithCapture_calls caller v timeSeconds b t :
  toNumber (stringToNumber b) timeSeconds = Some t →
  ∃ draw,
    (draw = [] ∨ draw = [CallDrawImage])
    ∧ calls (proceedWithCapture caller v timeSeconds b)
      = (if paused v then [] else [CallPause]) ++ [CallSeek timeSeconds]
        ++ draw
        ++ (if negb (paused v) && connectedAtExit b then [CallPlay] else []).
Proof.
  intros Ht. unfold proceedWithCapture, resume, observe, pause. rewrite Ht.
  destruct (paused v), (connectedAtExit b) eqn:Hb, (seekSignal b); simpl;
    rewrite ?Hb; simpl; repeat case_match; simplify_eq/=;
    first [ by (exists []; split; [left|])
          | by (exists [CallDrawImage]; split; [right|]) ].
Qed.

Lemma proceedWithCapture_paused caller v timeSeconds b t :
  toNumber (stringToNumber b) timeSeconds = Some t →
  paused (element (proceedWithCapture caller v timeSeconds b))
  = paused v || negb (connectedAtExit b).
Proof.
  intros Ht. unfold proceedWithCapture, resume, observe, pause. rewrite Ht.
  destruct (paused v) eqn:Hv, (connectedAtExit b) eqn:Hb, (seekSignal b);
    simpl; rewrite ?Hb, ?Hv; simpl; repeat case_match; simplify_eq/=; done.
Qed.

(** The exit that the assignment of a time that is not finite takes: the
    element has been paused if it was playing and nothing else is called. *)
Lemma proceedWithCapture_non_finite caller v timeSeconds b :
  toNumber (stringToNumber b) timeSeconds = None →
  proceedWithCapture caller v timeSeconds b
  = {| settled := match caller with
                  | Executor => Rejected nonFinite
                  | MetadataListener => Pending
                  end;
       element := if paused v then v else pause v;
       calls := if paused v then [] else [CallPause] |}.
Proof.
  intros Ht. unfold proceedWithCapture. rewrite Ht. by destruct (paused v).
Qed.


(** C7, as stated, fails: an element that was playing and is no longer
    connected to the document when the seek times out is left paused. *)
Lemma detached_element_stays_paused :
  ¬ (paused Samples.playing = false →
     paused (element (proceedWithCapture Executor Samples.playing (JNum 10)
                        Samples.detachedTimeout)) = false).
Proof. intros H. specialize (H eq_refl). vm_compute in H. discriminate H. Qed.

(** C7, amended. When the seek is issued, that is when the time is a finite
    number, [proceedWithCapture] pauses an element that is playing before
    it issues the seek, and on each of its exits (capture, zero dimension,
    media error, seek timeout) calls [play] again when the element is still
    connected to the document; an element that is no longer connected stays
    paused.  An element that was already paused is neither paused nor
    played and stays paused. *)
Theorem proceedWithCapture_restores_playback caller v timeSeconds b t :
  toNumber (stringToNumber b) timeSeconds = Some t →
  let c := proceedWithCapture caller v timeSeconds b in
  (paused v = false →
     (∃ rest, calls c = CallPause :: CallSeek timeSeconds :: rest)
     ∧ (connectedAtExit b = true →
          paused (element c) = false ∧ last (calls c) = Some CallPlay)
     ∧ (connectedAtExit b = false →
          paused (element c) = true ∧ (CallPlay ∉ calls c)))
  ∧ (paused v = true →
       paused (element c) = true
       ∧ (CallPause ∉ calls c) ∧ (CallPlay ∉ calls c)).
Proof.
  intros Ht. simpl.
  destruct (proceedWithCapture_calls caller v timeSeconds b t Ht)
    as (draw & Hdraw & Hcalls).
  pose proof (proceedWithCapture_paused caller v timeSeconds b t Ht) as Hp.
  rewrite Hcalls, Hp. split.
  - intros ->. simpl. split_and!.
    + eauto.
    + intros ->. split; [done|].
      destruct Hdraw as [-> | ->]; done.
    + intros ->. split; [done|].
      destruct Hdraw as [-> | ->]; simpl; not_among.
  - intros ->. simpl. split; [done|].
    destruct Hdraw as [-> | ->]; simpl; split; not_among.
Qed.

Lemma proceedWithCapture_restores_playback_witness :
  paused (element (proceedWithCapture Executor Samples.playing (JNum 10)
                     Samples.frameReady)) = false
  ∧ last (calls (proceedWithCapture Executor Samples.playing (JNum 10)
                   Samples.frameReady)) = Some CallPlay.
Proof.
  apply (proj1 (proceedWithCapture_restores_playback Executor Samples.playing
                  (JNum 10) Samples.frameReady 10 eq_refl));
    reflexivity.
Defined.

Lemma captureFrameAtTime_zero_dimension_witness :
  captureFrameAtTime (Some Samples.playing) 10 Samples.zeroWidth
  = Resolved None.
Proof.
  apply captureFrameAtTime_zero_dimension; [reflexivity|left; reflexivity].
Defined.

End capture.

(** ** Evidence binding *)

Section binder.
Import Capture CaptureFacts Binder.
Context (browser : nat → Browser).

Lemma captureOnElement_ready v timeSeconds b :
  (HAVE_METADATA ≤ readyState v)%Z →
  captureOnElement v timeSeconds b = proceedWithCapture Executor v timeSeconds b.
Proof.
  intros Hready. unfold captureOnElement.
  by rewrite bool_decide_eq_false_2 by lia.
Qed.




























End binder.

Section effect.
Import Capture Binder BinderReport ThumbnailEffect.



(** An entry that is [null] ends the effect at the filter of line 326, and
    so does a violation with a property [hasOwnProperty] of its own: no
    capture is made and the analysis on display is not changed. *)
Lemma thumbnailEffect_throws_at_the_filter :
  thumbnailEffect (λ _, Samples.frameReady) CanPlay true
    (JNull :: Samples.threeEntries) (Some "blob:video") (Some Samples.playing)
  = FilterThrows
  ∧ thumbnailEffect (λ _, Samples.frameReady) CanPlay true
      (Samples.threeEntries
       ++ [JObj (<["hasOwnProperty" := JBool true]> ∅)])
      (Some "blob:video") (Some Samples.playing)
    = FilterThrows.
Proof. split; by vm_compute. Qed.



End effect.


(** ** Saving a report *)

Section lifecycle.
Import ApiService Lifecycle.

Lemma length_is_zero (l : list JsValue) :
  is_zero (field (JArr l) "length") = bool_decide (l = []).
Proof. by destruct l. Qed.

Lemma criticalError_object (o : obj) (vs : list JsValue) :
  get o "violations" = JArr vs →
  criticalErrorWithoutViolations (JObj o)
  = truthy (get o "error") && bool_decide (vs = []).
Proof.
  intros Hvs. unfold criticalErrorWithoutViolations, field. simpl.
  rewrite Hvs. simpl. f_equal. apply length_is_zero.
Qed.

Lemma snoc_ne {A} (l : list A) x : l ++ [x] ≠ l.
Proof.
  intros H. apply (f_equal length) in H. rewrite length_app in H.
  simpl in H. lia.
Qed.

(** A save that the guard on errors rejects changes neither the store nor
    the state. *)
Lemma handleSaveReport_rejects pf st mock :
  selectedReportForViewing st = None →
  truthy (analysisResult st) = true →
  criticalErrorWithoutViolations (analysisResult st) = true →
  handleSaveReport pf st mock
  = {| toasts := [("Cannot save report with critical analysis errors and no violation data.", error)];
       state := st; mock := mock |}.
Proof.
  intros Hview Har Hcrit. unfold handleSaveReport.
  by rewrite Hview, Har, Hcrit.
Qed.

(** C1, as stated, fails: an analysis without error whose file is no longer
    selected is not saved either; the second guard of [handleSaveReport]
    rejects it and the store stays as it was. *)
Lemma save_rejected_without_error :
  let st := Samples.analysisWithoutFile in
  let h := handleSaveReport Samples.platform st [] in
  ¬ (mock h = []
     ↔ truthy (field (analysisResult st) "error") = true
       ∧ field (analysisResult st) "violations" = JArr []).
Proof.
  simpl. intros [Hrej _].
  assert (Hm : mock (handleSaveReport Samples.platform
                       Samples.analysisWithoutFile []) = []) by by vm_compute.
  destruct (Hrej Hm) as [Herr _]. vm_compute in Herr. discriminate Herr.
Qed.

(** C1, amended. When a new analysis is saved (no historical report is
    selected) and the selected file and its upload details are present, the
    save is rejected exactly when the analysis result has a non-empty
    [error] and an empty [violations] list: the store and the state are then
    unchanged.  In every other case the report built from the analysis is
    appended to the store and becomes the active report. *)
Theorem handleSaveReport_new_analysis pf st store file details o vs :
  selectedReportForViewing st = None →
  selectedFile st = Some file →
  uploadedFileDetails st = Some details →
  analysisResult st = JObj o →
  get o "violations" = JArr vs →
  let h := handleSaveReport pf st store in
  (truthy (get o "error") = true ∧ vs = [] →
     mock h = store ∧ state h = st)
  ∧ (¬ (truthy (get o "error") = true ∧ vs = []) →
     ∃ newReport,
       mock h = store ++ [newReport]
       ∧ savedReport (state h) = Some newReport
       ∧ get newReport "violations" = JArr vs
       ∧ get newReport "summary" = get o "summary"
       ∧ get newReport "safetyScore" = get o "safetyScore")
  ∧ (mock h = store ↔ truthy (get o "error") = true ∧ vs = [])
  ∧ (saveDisabled st = true ↔ mock h = store).
Proof.
  intros Hview Hfile Hdetails Har Hvs. simpl.
  pose proof (criticalError_object o vs Hvs) as Hcrit.
  assert (Hrej : truthy (get o "error") = true ∧ vs = [] →
            handleSaveReport pf st store
            = {| toasts := [("Cannot save report with critical analysis errors and no violation data.", error)];
                 state := st; mock := store |}).
  { intros [He ->]. apply handleSaveReport_rejects; [done|by rewrite Har|].
    rewrite Har, Hcrit, He. done. }
  assert (Hacc : ¬ (truthy (get o "error") = true ∧ vs = []) →
            handleSaveReport pf st store
            = let '(newSavedReport, mock') :=
                addVideoAnalysisReport (clock pf)
                  (reportToSave pf st file details) store in
              {| toasts := [("Analysis report saved successfully!", success)];
                 state := setSavedReport newSavedReport st; mock := mock' |}).
  { intros Hno. unfold handleSaveReport.
    rewrite Hview, Hfile, Hdetails, Har. simpl. rewrite Hcrit.
    destruct (truthy (get o "error")) eqn:He; simpl.
    - rewrite bool_decide_eq_false_2; [done|]. intros ->. by apply Hno.
    - done. }
  assert (Hdec : Decision (truthy (get o "error") = true ∧ vs = [])).
  { destruct (truthy (get o "error")), vs as [|x l];
      [ left; done
      | right; intros [_ H]; discriminate H
      | right; intros [H _]; discriminate H
      | right; intros [H _]; discriminate H ]. }
  split_and!.
  - intros H. by rewrite (Hrej H).
  - intros H. rewrite (Hacc H). simpl. eexists. split_and!; try done.
    + unfold get. rewrite !lookup_insert_ne by done.
      unfold reportToSave. rewrite !lookup_insert_ne by done.
      rewrite lookup_insert_eq. simpl. rewrite Har. unfold field. simpl.
      by rewrite Hvs.
    + unfold get at 1. rewrite !lookup_insert_ne by done.
      unfold reportToSave. rewrite !lookup_insert_ne by done.
      rewrite lookup_insert_eq. simpl. by rewrite Har.
    + unfold get at 1. rewrite !lookup_insert_ne by done.
      unfold reportToSave. rewrite !lookup_insert_ne by done.
      rewrite lookup_insert_eq. simpl. by rewrite Har.
  - split.
    + intros Hm. destruct Hdec as [H|H]; [done|].
      rewrite (Hacc H) in Hm. simpl in Hm. by apply snoc_ne in Hm.
    + intros H. by rewrite (Hrej H).
  - unfold saveDisabled. rewrite Har. simpl. rewrite Hcrit.
    destruct Hdec as [H|H].
    + rewrite (Hrej H). simpl. destruct H as [-> ->].
      by rewrite bool_decide_eq_true_2.
    + rewrite (Hacc H). simpl. split.
      * intros Hd. apply andb_true_iff in Hd as [He Hv].
        apply bool_decide_eq_true in Hv. by destruct H.
      * intros Hm. by apply snoc_ne in Hm.
Qed.

Lemma handleSaveReport_new_analysis_witness :
  mock (handleSaveReport Samples.platform Samples.analysisWithFile []) = []
  ↔ truthy (JUndefined) = true
    ∧ map JObj (take 1 Samples.threeViolations) = [].
Proof.
  refine (proj1 (proj2 (proj2
    (handleSaveReport_new_analysis Samples.platform
       Samples.analysisWithFile []
       {| file_name := "site.mp4" |}
       {| up_name := "site.mp4"; up_uri := "https://files/abc";
          up_videoId := "files/abc"; up_mimeType := "video/mp4" |}
       (<["summary" := JStr "ok"]>
        (<["violations" := JArr (map JObj (take 1 Samples.threeViolations))]> ∅))
       (map JObj (take 1 Samples.threeViolations)) _ _ _ _ _))));
    reflexivity.
Defined.

End lifecycle.

(** ** Audio inspection and repair *)

Section video.
Import VideoProcessor.

(** What [detectAudioIssues] decides on a descriptor whose channel count and
    sample rate are numbers: the test on the sample rate is skipped when the
    rate is [0], and an empty codec name counts as a missing codec. *)
Lemma needsRepair_descriptor channelCount sampleRateHz codec :
  needsRepair (streamOf channelCount sampleRateHz codec)
  = bool_decide (channelCount = 0%Z)
    || (negb (bool_decide (sampleRateHz = 0%Z))
        && bool_decide (sampleRateHz < 8000)%Z)
    || negb (VideoProcessor.truthy (PStr <$> codec)).
Proof.
  unfold needsRepair, detectAudioIssues, streamOf. simpl.
  destruct (bool_decide (channelCount = 0%Z)),
    (bool_decide (sampleRateHz = 0%Z)),
    (bool_decide (sampleRateHz < 8000)%Z),
    (VideoProcessor.truthy (PStr <$> codec)); simpl; done.
Qed.

(** Away from a sample rate of [0] and an empty codec name the code decides
    as the rule of section 4.1 of the specification. *)
Lemma needsRepair_agrees channelCount sampleRateHz codec :
  sampleRateHz ≠ 0%Z → codec ≠ Some "" →
  needsRepair (streamOf channelCount sampleRateHz codec)
  = needsRepairSpec channelCount sampleRateHz codec.
Proof.
  intros Hrate Hcodec. rewrite needsRepair_descriptor. unfold needsRepairSpec.
  rewrite (bool_decide_eq_false_2 (sampleRateHz = 0%Z)) by done. simpl.
  f_equal. destruct codec as [c|]; simpl; [|done].
  by rewrite (bool_decide_eq_false_2 (c = "")) by congruence.
Qed.

(** Every descriptor without audio channels is flagged. *)
Lemma needsRepair_zero_channels sampleRateHz codec :
  needsRepair (streamOf 0 sampleRateHz codec) = true.
Proof. by rewrite needsRepair_descriptor. Qed.

(** The descriptor of the repaired output is not flagged. *)
Lemma needsRepair_repaired :
  needsRepair (streamOf 2 44100 (Some "aac")) = false.
Proof. reflexivity. Qed.

(** C4. On the descriptor with two channels, a sample rate of 0 Hz and the
    codec aac the rule of the specification asks for a repair, since 0 is
    below 8000, and [detectAudioIssues] reports no issue: the test
    [audioStream.sample_rate && ...] takes the number 0 for a missing
    sample rate. *)
Theorem detectAudioIssues_misses_zero_sample_rate :
  needsRepairSpec 2 0 (Some "aac") = true
  ∧ detectAudioIssues (streamOf 2 0 (Some "aac")) = None
  ∧ needsRepair (streamOf 2 0 (Some "aac")) = false.
Proof. by vm_compute. Qed.

End video.

Section repair.
Import VideoProcessor PreprocessScript.

Lemma processVideo_keeps_input inputPath outputPath duration run disk :
  inputPath ≠ outputPath →
  (processVideo inputPath outputPath duration run disk).2 !! inputPath
  = disk !! inputPath.
Proof.
  intros Hne. unfold processVideo.
  destruct (disk !! inputPath) eqn:Hin; simpl; [|done].
  destruct run as [output|message [output|]]; simpl;
    by rewrite ?lookup_insert_ne.
Qed.

Lemma list_ascii_of_string_app (s t : string) :
  list_ascii_of_string (s +:+ t)
  = list_ascii_of_string s ++ list_ascii_of_string t.
Proof.
  induction s as [|c s IH]; [done|].
  change (String c s +:+ t) with (String c (s +:+ t)). simpl. by rewrite IH.
Qed.

(** The temporary file of the script has the extension [tmp]. *)
Lemma extensionOf_tmp (output_file : string) :
  extensionOf (output_file +:+ ".tmp") = "tmp".
Proof.
  unfold extensionOf. by rewrite list_ascii_of_string_app, rev_app_distr.
Qed.

(** ffmpeg finds no container for the temporary file: the command fails,
    [fix_audio_stream] never returns and the script leaves the files as
    they were, without the repaired file that its messages announce. *)
Lemma fix_audio_stream_fails input_file output_file duration run disk :
  fix_audio_stream input_file output_file duration run disk = (false, disk).
Proof.
  unfold fix_audio_stream, ffmpeg, guessFormat.
  by rewrite extensionOf_tmp.
Qed.

(** C5, as stated, fails: after a successful run of [processVideoFile] the
    upload is no longer on disk; the pipeline has removed it. *)
Lemma ingest_removes_the_upload :
  ¬ inputPreserved Samples.host Samples.upload Samples.disk ∅.
Proof.
  unfold inputPreserved. intros [_ H]. vm_compute in H. discriminate H.
Qed.

(** C5, amended. [processVideo] leaves the file at [inputPath] as it is,
    whether ffmpeg succeeds or fails, whenever the output path differs from
    it, and a successful run of ffmpeg puts its output at [outputPath];
    [fix_audio_stream] of the script leaves the file at [inputPath] as it is
    too.  The surrounding [processVideoFile] then removes the upload: after
    a successful ingest nothing is left at its path, while a failed ingest
    that writes elsewhere leaves the upload untouched. *)
Theorem repair_keeps_input_until_cleanup
    inputPath outputPath duration scriptDuration run scriptRun disk h
    originalFile db :
  (inputPath ≠ outputPath →
     (processVideo inputPath outputPath duration run disk).2 !! inputPath
     = disk !! inputPath)
  ∧ (fix_audio_stream inputPath outputPath scriptDuration scriptRun disk).2
      !! inputPath
    = disk !! inputPath
  ∧ (∀ output, is_Some (disk !! inputPath) → run = FfmpegEnd output →
     processVideo inputPath outputPath duration run disk
     = (inr outputPath, <[outputPath := output]> disk))
  ∧ (∀ result disk' db',
       processVideoFile h originalFile disk db = (inr result, disk', db') →
       disk' !! path originalFile = None)
  ∧ (∀ message disk' db',
       processVideoFile h originalFile disk db = (inl message, disk', db') →
       path originalFile ≠ processedDir h +:+ "/" +:+ videoId h
                           +:+ "_processed" +:+ fileExtension h →
       disk' !! path originalFile = disk !! path originalFile).
Proof.
  split_and!.
  - apply processVideo_keeps_input.
  - by rewrite fix_audio_stream_fails.
  - intros output [content Hin] ->. unfold processVideo. by rewrite Hin.
  - intros result disk' db' Hrun. unfold processVideoFile in Hrun.
    destruct (disk !! path originalFile) eqn:Hin; [|done].
    destruct (probe h) as [message|duration' audioStream]; [done|].
    simpl in Hrun.
    destruct (processVideo _ _ _ _ _) as [[message|finalPath] disk1]; [done|].
    destruct (disk1 !! path originalFile); [|done].
    injection Hrun as _ <- _. apply lookup_delete_eq.
  - intros message disk' db' Hrun Hne. unfold processVideoFile in Hrun.
    destruct (disk !! path originalFile) eqn:Hin.
    + destruct (probe h) as [message'|duration' audioStream].
      { by injection Hrun as _ <- _. }
      simpl in Hrun.
      pose proof (processVideo_keeps_input (path originalFile) _ duration'
                    (VideoProcessor.run h) disk Hne) as Hkeep.
      destruct (processVideo _ _ _ _ _) as [[message'|finalPath] disk1];
        simpl in Hkeep.
      * injection Hrun as _ <- _. congruence.
      * destruct (disk1 !! path originalFile) eqn:H1.
        { discriminate Hrun. }
        injection Hrun as _ <- _. congruence.
    + by injection Hrun as _ <- _.
Qed.

Lemma repair_keeps_input_until_cleanup_witness :
  (processVideo "in.mp4" "out.mp4" (JNum 5) (FfmpegEnd "repaired")
     (<["in.mp4" := "raw"]> ∅)).2 !! "in.mp4" = Some "raw"
  ∧ (fix_audio_stream "in.mp4" "out.mp4" "5" (FfmpegEnd "repaired")
       (<["in.mp4" := "raw"]> ∅)).2 !! "in.mp4" = Some "raw"
  ∧ processVideo "in.mp4" "out.mp4" (JNum 5) (FfmpegEnd "repaired")
      (<["in.mp4" := "raw"]> ∅)
    = (inr "out.mp4", <["out.mp4" := "repaired"]> (<["in.mp4" := "raw"]> ∅)).
Proof.
  destruct (repair_keeps_input_until_cleanup "in.mp4" "out.mp4" (JNum 5) "5"
              (FfmpegEnd "repaired") (FfmpegEnd "repaired")
              (<["in.mp4" := "raw"]> ∅) Samples.host Samples.upload ∅)
    as (Hkeep & Hscript & Hout & _).
  split_and!.
  - rewrite Hkeep; [reflexivity|discriminate].
  - by rewrite Hscript.
  - apply (Hout "repaired"); [by eexists|reflexivity].
Defined.

End repair.

(** * Further properties of the code *)

(** ** The report store, continued *)

Section store_more.
Import ApiService ReportQueries.

Lemma find_app_Some {A} (p : A → bool) (l k : list A) x :
  List.find p l = Some x → List.find p (l ++ k) = Some x.
Proof.
  induction l as [|a l IH]; simpl; [done|].
  destruct (p a); [done|]. apply IH.
Qed.

Lemma findIndex_insert {A} (p : A → bool) (l : list A) i y :
  findIndex p l = Some i → p y = true → findIndex p (<[i := y]> l) = Some i.
Proof.
  revert i. induction l as [|a l IH]; intros i; simpl; [done|].
  destruct (p a) eqn:Hp.
  - intros [= <-] Hy. simpl. by rewrite Hy.
  - destruct (findIndex p l) as [n|] eqn:Hf; simpl; [|done].
    intros [= <-] Hy. simpl. rewrite Hp. by rewrite (IH n eq_refl Hy).
Qed.

Lemma find_findIndex {A} (p : A → bool) (l : list A) :
  List.find p l = (findIndex p l ≫= λ i, l !! i).
Proof.
  induction l as [|a l IH]; simpl; [done|].
  destruct (p a); [done|]. rewrite IH.
  by destruct (findIndex p l).
Qed.

Lemma findIndex_lookup {A} (p : A → bool) (l : list A) i :
  findIndex p l = Some i → ∃ x, l !! i = Some x ∧ p x = true.
Proof.
  intros H. destruct (findIndex_Some p l i H) as (x & Hx & Hp & _). eauto.
Qed.

(** X1. Adding a report never hides or changes a report that could be
    fetched before: every id that [getVideoAnalysisReportById] resolved
    still resolves to the same report, and the store grows by one. *)
Theorem addVideoAnalysisReport_keeps_existing clk reportData mock id r :
  getVideoAnalysisReportById id mock = Some r →
  getVideoAnalysisReportById id (addVideoAnalysisReport clk reportData mock).2
  = Some r
  ∧ length (addVideoAnalysisReport clk reportData mock).2 = S (length mock).
Proof.
  intros Hget. simpl. split.
  - by apply find_app_Some.
  - rewrite length_app. simpl. lia.
Qed.

Lemma addVideoAnalysisReport_keeps_existing_witness :
  getVideoAnalysisReportById (JStr (new_id Samples.sameMillisecond))
    (addVideoAnalysisReport Samples.sameMillisecond Samples.secondPayload
       (addVideoAnalysisReport Samples.sameMillisecond Samples.firstPayload []).2).2
  = Some (addVideoAnalysisReport Samples.sameMillisecond Samples.firstPayload []).1.
Proof.
  apply (addVideoAnalysisReport_keeps_existing Samples.sameMillisecond
           Samples.secondPayload _ _ _).
  reflexivity.
Defined.

(** X2. After a successful update whose [updates] carry no [id], fetching
    by the same id returns the updated report. *)
Theorem update_then_fetch id updates mock :
  present id mock →
  updates !! "id" = None →
  ∃ updated mock',
    updateVideoAnalysisReport id updates mock = (inr updated, mock')
    ∧ getVideoAnalysisReportById id mock' = Some updated.
Proof.
  intros (r & Hr & Hid) Hnoid. unfold updateVideoAnalysisReport.
  destruct (findIndex _ mock) as [i|] eqn:Hf.
  - destruct (findIndex_lookup _ _ _ Hf) as (x & Hx & Hpx).
    rewrite Hx. simpl. eexists _, _. split; [done|].
    unfold getVideoAnalysisReportById. rewrite find_findIndex.
    assert (Hup : strict_eq (get (spread x updates) "id") id = true).
    { unfold get. by rewrite lookup_spread, Hnoid. }
    rewrite (findIndex_insert _ _ _ _ Hf Hup). simpl.
    apply list_lookup_insert_eq. by eapply lookup_lt_Some.
  - rewrite findIndex_None in Hf. by rewrite (Hf r Hr) in Hid.
Qed.

Lemma update_then_fetch_witness :
  ∃ updated mock',
    updateVideoAnalysisReport (JStr (new_id Samples.sameMillisecond))
      MoreSamples.reviewed MoreSamples.oneReport = (inr updated, mock')
    ∧ getVideoAnalysisReportById (JStr (new_id Samples.sameMillisecond)) mock'
      = Some updated.
Proof.
  apply update_then_fetch; [|reflexivity].
  exists (addVideoAnalysisReport Samples.sameMillisecond Samples.firstPayload []).1.
  split; [by left|reflexivity].
Defined.

(** X3. Two updates of the same report compose: when the first [updates]
    carry no [id], updating with [updates1] and then with [updates2] leaves
    the store, and returns the report, that a single update with
    [{ ...updates1, ...updates2 }] gives. *)
Theorem update_twice id updates1 updates2 mock :
  updates1 !! "id" = None →
  updateVideoAnalysisReport id updates2
    (updateVideoAnalysisReport id updates1 mock).2
  = updateVideoAnalysisReport id (spread updates1 updates2) mock.
Proof.
  intros Hnoid. unfold updateVideoAnalysisReport.
  destruct (findIndex _ mock) as [i|] eqn:Hf; simpl; [|by rewrite Hf].
  destruct (findIndex_lookup _ _ _ Hf) as (x & Hx & Hpx).
  rewrite Hx. simpl.
  assert (Hup : strict_eq (get (spread x updates1) "id") id = true).
  { unfold get. by rewrite lookup_spread, Hnoid. }
  rewrite (findIndex_insert _ _ _ _ Hf Hup).
  rewrite list_lookup_insert_eq by (by eapply lookup_lt_Some). simpl.
  rewrite list_insert_insert_eq.
  unfold spread. by rewrite (assoc_L (∪)).
Qed.

Lemma update_twice_witness :
  updateVideoAnalysisReport (JStr (new_id Samples.sameMillisecond))
    MoreSamples.commented
    (updateVideoAnalysisReport (JStr (new_id Samples.sameMillisecond))
       MoreSamples.reviewed MoreSamples.oneReport).2
  = updateVideoAnalysisReport (JStr (new_id Samples.sameMillisecond))
      (spread MoreSamples.reviewed MoreSamples.commented) MoreSamples.oneReport.
Proof. apply update_twice. reflexivity. Defined.

Lemma filter_snoc {A} (p : A → bool) (l : list A) x :
  List.filter p (l ++ [x]) = List.filter p l ++ (if p x then [x] else []).
Proof.
  induction l as [|a l IH]; simpl; [by destruct (p x)|].
  rewrite IH. by destruct (p a).
Qed.

(** X4. The reports of a video are listed in the order in which they were
    added: adding a report appends it to the list of its own video and
    leaves the list of every other video as it was. *)
Theorem getVideoAnalysisReportsByVideoId_add clk reportData mock videoId :
  getVideoAnalysisReportsByVideoId videoId
    (addVideoAnalysisReport clk reportData mock).2
  = getVideoAnalysisReportsByVideoId videoId mock
    ++ (if strict_eq (get reportData "videoId") videoId
        then [(addVideoAnalysisReport clk reportData mock).1] else []).
Proof.
  unfold getVideoAnalysisReportsByVideoId. simpl. rewrite filter_snoc.
  f_equal.
  pose proof (new_report_field clk reportData mock "videoId") as H.
  simpl in H. by rewrite H.
Qed.

End store_more.

Section history_list.
Import ApiService ReportQueries.
Context (getTime : JsValue → Z).

Let time (r : obj) : Z := getTime (get r "analysisDateTime").

Lemma insertBy_Permutation {A} (compare : A → A → Z) x (l : list A) :
  insertBy compare x l ≡ₚ x :: l.
Proof.
  induction l as [|y l IH]; simpl; [done|].
  case_bool_decide; [done|]. rewrite IH. apply Permutation_swap.
Qed.

Lemma sortBy_Permutation {A} (compare : A → A → Z) (l : list A) :
  sortBy compare l ≡ₚ l.
Proof.
  induction l as [|x l IH]; simpl; [done|].
  by rewrite insertBy_Permutation, IH.
Qed.

Lemma insertBy_newestFirst_sorted x l :
  StronglySorted (λ a b, time b ≤ time a)%Z l →
  StronglySorted (λ a b, time b ≤ time a)%Z (insertBy (newestFirst getTime) x l).
Proof.
  induction 1 as [|y l Hl IH Hy]; simpl.
  - repeat constructor.
  - unfold newestFirst at 1. fold (time x) (time y). case_bool_decide as Hc.
    + constructor; [by constructor|].
      constructor; [lia|].
      eapply Forall_impl; [exact Hy|]. simpl. intros z Hz. lia.
    + constructor; [done|].
      rewrite insertBy_Permutation. constructor; [lia|done].
Qed.

Lemma insertBy_newestFirst_filter t0 x l :
  List.filter (λ r, bool_decide (time r = t0))
    (insertBy (newestFirst getTime) x l)
  = List.filter (λ r, bool_decide (time r = t0)) (x :: l).
Proof.
  induction l as [|y l IH]; simpl; [done|].
  unfold newestFirst at 1. fold (time x) (time y). case_bool_decide as Hc.
  - done.
  - simpl. rewrite IH. simpl.
    repeat case_bool_decide; try done. lia.
Qed.

(** X5. The history list is the store reordered: it holds the same reports
    (the store itself is not changed), a report never comes before one with
    a later analysis time, and reports with the same time keep the order in
    which they were stored. *)
Theorem getAllVideoAnalysisReports_sorted mock :
  getAllVideoAnalysisReports getTime mock ≡ₚ mock
  ∧ (∀ i j a b, i < j →
       getAllVideoAnalysisReports getTime mock !! i = Some a →
       getAllVideoAnalysisReports getTime mock !! j = Some b →
       (getTime (get b "analysisDateTime")
        ≤ getTime (get a "analysisDateTime"))%Z)
  ∧ (∀ t0,
       List.filter (λ r, bool_decide (getTime (get r "analysisDateTime") = t0))
         (getAllVideoAnalysisReports getTime mock)
       = List.filter (λ r, bool_decide (getTime (get r "analysisDateTime") = t0))
           mock).
Proof.
  unfold getAllVideoAnalysisReports. split_and!.
  - apply sortBy_Permutation.
  - assert (Hs : StronglySorted (λ a b, time b ≤ time a)%Z
                   (sortBy (newestFirst getTime) mock)).
    { induction mock as [|x l IH]; simpl; [constructor|].
      by apply insertBy_newestFirst_sorted. }
    revert Hs. generalize (sortBy (newestFirst getTime) mock) as l.
    intros l Hs. induction Hs as [|y l Hl IH Hy]; intros i j a b Hij Ha Hb.
    + done.
    + destruct j as [|j]; [lia|]. simpl in Hb.
      destruct i as [|i]; simpl in Ha.
      * injection Ha as <-. rewrite Forall_forall in Hy.
        apply Hy. apply list_elem_of_lookup. eauto.
      * apply (IH i j); [lia|done..].
  - intros t0. induction mock as [|x l IH]; [done|].
    pose proof (insertBy_newestFirst_filter t0 x
                  (sortBy (newestFirst getTime) l)) as H.
    unfold time in H. cbn [sortBy foldr]. unfold sortBy in H. rewrite H.
    cbn [List.filter]. by rewrite <- IH.
Qed.

End history_list.

(** ** The project store *)

Section projects.
Import ApiService ProjectStore.

Lemma findIndex_snoc {A} (p : A → bool) (l : list A) x :
  (∀ y, y ∈ l → p y = false) → p x = true →
  findIndex p (l ++ [x]) = Some (length l).
Proof.
  induction l as [|a l IH]; simpl; intros Hl Hx.
  - by rewrite Hx.
  - rewrite (Hl a) by left. rewrite IH; [done| |done].
    intros y Hy. apply Hl. by right.
Qed.

(** X6. A project created and given its JSA file right away: when no
    earlier project carries the generated id, the store ends with exactly
    one more project, the new one, which keeps the submitted fields, has the
    submitted status or [Active] when none was given, and carries the JSA
    whose path is [/uploads/jsa/<project id>/<file name>]; the earlier
    projects are untouched. *)
Theorem addProject_then_uploadJSA clk clk' projectData file mockProjects :
  let projectId := "proj-" +:+ pretty (Date_now clk) in
  (∀ p, p ∈ mockProjects → strict_eq (get p "id") (JStr projectId) = false) →
  let '(newProject, mock1) := addProject clk projectData mockProjects in
  uploadJSA clk' projectId file mock1
  = (inr (newJSA clk' projectId file),
     mockProjects ++ [<["jsa" := JObj (newJSA clk' projectId file)]> newProject])
  ∧ get newProject "id" = JStr projectId
  ∧ get newProject "status"
    = (if truthy (get projectData "status") then get projectData "status"
       else JStr "Active")
  ∧ (∀ k, k ≠ "id" → k ≠ "status" → newProject !! k = projectData !! k)
  ∧ get (newJSA clk' projectId file) "filePath"
    = JStr ("/uploads/jsa/" +:+ projectId +:+ "/" +:+ jsa_file_name file).
Proof.
  intros projectId Hfresh. simpl. split_and!.
  - unfold uploadJSA.
    rewrite findIndex_snoc; [|done|].
    + rewrite lookup_app_r by done. rewrite Nat.sub_diag. simpl.
      f_equal. rewrite insert_app_r_alt by done.
      by rewrite Nat.sub_diag.
    + unfold get. rewrite lookup_insert_ne by done.
      rewrite lookup_insert_eq. simpl. by apply bool_decide_eq_true.
  - unfold get. rewrite lookup_insert_ne by done. by rewrite lookup_insert_eq.
  - unfold get at 1. by rewrite lookup_insert_eq.
  - intros k Hid Hstatus. by rewrite !lookup_insert_ne.
  - unfold get, newJSA. rewrite !lookup_insert_ne by done.
    by rewrite lookup_insert_eq.
Qed.

Lemma addProject_then_uploadJSA_witness :
  (uploadJSA Samples.sameMillisecond "proj-1730000000000"
     {| jsa_file_name := "jsa.pdf" |}
     (addProject Samples.sameMillisecond MoreSamples.reviewed []).2).1
  = inr (newJSA Samples.sameMillisecond "proj-1730000000000"
           {| jsa_file_name := "jsa.pdf" |}).
Proof.
  refine (f_equal fst (proj1 (addProject_then_uploadJSA Samples.sameMillisecond
            Samples.sameMillisecond MoreSamples.reviewed
            {| jsa_file_name := "jsa.pdf" |} [] _))).
  intros p Hp. by apply elem_of_nil in Hp.
Defined.

End projects.

(** ** Upload and analysis calls *)

Section gemini.
Import Parser GeminiService.

Lemma pollLoop_pending (get : nat → Call FileStatus) file mimeType0 videoId k :
  ∀ remaining attempts,
    k ≤ remaining →
    (∀ j, j < k → ∃ st, get (attempts + j) = Returns st ∧ state st = OTHER) →
    pollLoop remaining attempts get file mimeType0 videoId
    = pollLoop (remaining - k) (attempts + k) get file mimeType0 videoId.
Proof.
  induction k as [|k IH]; intros remaining attempts Hk Hpending.
  - by rewrite Nat.sub_0_r, Nat.add_0_r.
  - destruct remaining as [|remaining]; [lia|]. simpl.
    destruct (Hpending 0) as (st & Hget & Hst); [lia|].
    rewrite Nat.add_0_r in Hget. rewrite Hget, Hst.
    rewrite IH; [|lia|].
    + f_equal. lia.
    + intros j Hj. destruct (Hpending (S j)) as (st' & Hget' & Hst'); [lia|].
      exists st'. split; [|done]. rewrite <- Hget'. f_equal. lia.
Qed.

Lemma pollLoop_calls (get : nat → Call FileStatus) file mimeType0 videoId :
  ∀ remaining attempts,
    (pollLoop remaining attempts get file mimeType0 videoId).2
    ≤ attempts + remaining.
Proof.
  induction remaining as [|remaining IH]; intros attempts; simpl; [lia|].
  repeat case_match; simpl; try lia.
  specialize (IH (S attempts)). lia.
Qed.

(** X7. An upload whose file never leaves the processing state gives up:
    when the first 36 status requests all return a state other than ACTIVE
    and FAILED, [uploadVideoFile] throws the time-out error after exactly
    36 requests, that is after 36 waits of 5000 ms. *)
Theorem uploadVideoFile_times_out API_KEY file resourceName get :
  keyMissing API_KEY = false →
  orString resourceName "" ≠ "" →
  (∀ j, j < MAX_POLLING_ATTEMPTS →
        ∃ st, get j = Returns st ∧ state st = OTHER) →
  uploadVideoFile API_KEY file (Returns resourceName) get
  = (inl "Error uploading/processing video: File did not become ACTIVE after 36 attempts. Last state: PROCESSING.",
     36)
  ∧ (Z.of_nat (uploadVideoFile API_KEY file (Returns resourceName) get).2
     * POLLING_INTERVAL_MS = 180000)%Z.
Proof.
  intros Hkey Hname Hpending.
  assert (Hrun : uploadVideoFile API_KEY file (Returns resourceName) get
            = (inl "Error uploading/processing video: File did not become ACTIVE after 36 attempts. Last state: PROCESSING.", 36)).
  { unfold uploadVideoFile. rewrite Hkey.
    rewrite bool_decide_eq_false_2 by done.
    rewrite (pollLoop_pending get file _ _ MAX_POLLING_ATTEMPTS
               MAX_POLLING_ATTEMPTS 0); [|done|done].
    rewrite Nat.sub_diag. reflexivity. }
  split; [done|]. by rewrite Hrun.
Qed.

(** X8. The first decisive status wins: when the requests before the
    [k]-th one (with [k] below 36) return neither ACTIVE nor FAILED and the
    [k]-th one returns ACTIVE with a URI, [uploadVideoFile] returns that URI
    after [k + 1] requests, with the MIME type and the name of the status,
    or those of the file when the status has none; what later requests
    would return is never asked. *)
Theorem uploadVideoFile_first_active API_KEY file resourceName get k st u :
  keyMissing API_KEY = false →
  orString resourceName "" ≠ "" →
  k < MAX_POLLING_ATTEMPTS →
  (∀ j, j < k → ∃ st', get j = Returns st' ∧ state st' = OTHER) →
  get k = Returns st → state st = ACTIVE → uri st = Some u → u ≠ "" →
  uploadVideoFile API_KEY file (Returns resourceName) get
  = (inr {| info_uri := u;
            info_mimeType :=
              orString (mimeType st) (orString (Some (type file)) "video/mp4");
            info_name := orString (displayName st) (name file);
            info_videoId := orString resourceName "" |},
     S k).
Proof.
  intros Hkey Hname Hk Hpending Hget Hstate Huri Hu.
  unfold uploadVideoFile. rewrite Hkey.
  rewrite bool_decide_eq_false_2 by done.
  rewrite (pollLoop_pending get file _ _ k MAX_POLLING_ATTEMPTS 0);
    [|lia|done].
  destruct (MAX_POLLING_ATTEMPTS - k) as [|remaining] eqn:Hrem; [lia|].
  simpl. rewrite Hget, Hstate, Huri.
  by rewrite bool_decide_eq_false_2.
Qed.

(** X9. [uploadVideoFile] never asks for the status more than 36 times, and
    with a configured API key every error it throws is either prefixed with
    "Error uploading/processing video: " or the message for a thrown value
    that is not an Error. *)
Theorem uploadVideoFile_bounded API_KEY file upload get :
  (uploadVideoFile API_KEY file upload get).2 ≤ MAX_POLLING_ATTEMPTS
  ∧ (keyMissing API_KEY = false →
     ∀ message, (uploadVideoFile API_KEY file upload get).1 = inl message →
       (∃ cause, message = "Error uploading/processing video: " +:+ cause)
       ∨ message
         = "An unknown error occurred while uploading or processing the video.").
Proof.
  unfold uploadVideoFile. cbv zeta. split.
  - destruct (keyMissing API_KEY); [simpl; unfold MAX_POLLING_ATTEMPTS; lia|].
    destruct upload as [resourceName|t];
      [|simpl; unfold MAX_POLLING_ATTEMPTS; lia].
    case_bool_decide; [simpl; unfold MAX_POLLING_ATTEMPTS; lia|].
    pose proof (pollLoop_calls get file
                  (orString (Some (type file)) "video/mp4")
                  (orString resourceName "") MAX_POLLING_ATTEMPTS 0) as Hcalls.
    destruct (pollLoop _ _ _ _ _ _) as [[t|info] n]; simpl in *; lia.
  - intros -> message.
    assert (Hwrap : ∀ t, inl (B := UploadedInfo) (wrapUploadError t) = inl message →
              (∃ cause, message = "Error uploading/processing video: " +:+ cause)
              ∨ message = "An unknown error occurred while uploading or processing the video.").
    { intros [m|] [= <-]; [left; by exists m|by right]. }
    destruct upload as [resourceName|t]; [|apply Hwrap].
    case_bool_decide; [apply Hwrap|].
    destruct (pollLoop _ _ _ _ _ _) as [[t|info] n]; [apply Hwrap|done].
Qed.

Lemma uploadVideoFile_times_out_witness :
  (uploadVideoFile (Some "key") MoreSamples.siteVideo (Returns (Some "files/abc"))
     (λ _, Returns MoreSamples.processing)).2 = 36.
Proof.
  refine (f_equal snd (proj1 (uploadVideoFile_times_out (Some "key")
            MoreSamples.siteVideo (Some "files/abc")
            (λ _, Returns MoreSamples.processing) _ _ _))).
  - reflexivity.
  - discriminate.
  - intros j _. by exists MoreSamples.processing.
Defined.

Lemma uploadVideoFile_first_active_witness :
  (uploadVideoFile (Some "key") MoreSamples.siteVideo (Returns (Some "files/abc"))
     MoreSamples.activeAtThird).2 = 3.
Proof.
  refine (f_equal snd (uploadVideoFile_first_active (Some "key")
            MoreSamples.siteVideo (Some "files/abc") MoreSamples.activeAtThird
            2 MoreSamples.active "https://files/abc" _ _ _ _ _ _ _ _)).
  - reflexivity.
  - discriminate.
  - unfold MAX_POLLING_ATTEMPTS. lia.
  - intros j Hj. exists MoreSamples.processing. split; [|done].
    unfold MoreSamples.activeAtThird. by rewrite bool_decide_eq_true_2.
  - reflexivity.
  - reflexivity.
  - reflexivity.
  - discriminate.
Defined.

Lemma uploadVideoFile_bounded_witness :
  (uploadVideoFile (Some "key") MoreSamples.siteVideo
     (Throws (ErrorObject "network")) MoreSamples.activeAtThird).2 ≤ 36.
Proof.
  exact (proj1 (uploadVideoFile_bounded (Some "key") MoreSamples.siteVideo
                  (Throws (ErrorObject "network")) MoreSamples.activeAtThird)).
Defined.

Lemma truthy_append (prefix message : string) :
  prefix ≠ "" → truthy (JStr (prefix +:+ message)) = true.
Proof.
  intros Hp. simpl. apply negb_true_iff, bool_decide_eq_false_2.
  destruct prefix; [done|]. discriminate.
Qed.

(** An object with a non-empty [error] and without violations of its own
    comes out of the decode step as an analysis result that cannot be
    saved. *)
Lemma decoded_error_is_critical (o : obj) (message text : string) :
  o !! "error" = Some (JStr message) → message ≠ "" →
  o !! "violations" = None ∨ o !! "violations" = Some (JArr []) →
  let r := parseAnalysisResponse text (Decoded (JObj o)) in
  truthy r = true ∧ Lifecycle.criticalErrorWithoutViolations r = true.
Proof.
  intros Herr Hmsg Hviol.
  assert (Ht : truthy (JStr message) = true).
  { simpl. by apply negb_true_iff, bool_decide_eq_false_2. }
  assert (Hr : parseAnalysisResponse text (Decoded (JObj o))
               = JObj (spread (<["violations" := JArr []]> ∅) o)).
  { unfold parseAnalysisResponse. simpl. unfold get. rewrite Herr. simpl.
    simpl in Ht. by rewrite Ht. }
  cbv zeta. rewrite Hr. split; [done|].
  unfold Lifecycle.criticalErrorWithoutViolations, field. simpl.
  unfold get. rewrite !lookup_spread, Herr. simpl. simpl in Ht. rewrite Ht.
  simpl. destruct Hviol as [-> | ->]; simpl.
  - by rewrite lookup_insert_eq.
  - done.
Qed.

(** X10. Whenever [analyzeUploadedVideo] could not obtain a JSON answer
    (no API key, a failing call of the model, or an answer that is not
    JSON), the analysis result that the decode step of [handleAnalyzeVideo]
    stores has an error and no violation: the button that saves is disabled,
    and [handleSaveReport] on a new analysis leaves the store and the state
    unchanged. *)
Theorem failed_analysis_is_not_savable API_KEY generate JSON_stringify
    outcome pf st mock :
  keyMissing API_KEY = true
  ∨ (∃ t, generate = Throws t)
  ∨ (∃ response_text jsonStr,
       generate = Returns (response_text, jsonStr, SyntaxError)) →
  let answer := analyzeUploadedVideo API_KEY generate in
  Lifecycle.selectedReportForViewing st = None →
  Lifecycle.analysisResult st
  = parseAnalysisResponse (answerString JSON_stringify answer)
      (decodeAnswer answer outcome) →
  Lifecycle.saveDisabled st = true
  ∧ Lifecycle.mock (Lifecycle.handleSaveReport pf st mock) = mock
  ∧ Lifecycle.state (Lifecycle.handleSaveReport pf st mock) = st.
Proof.
  intros Hfail answer Hview Hresult.
  assert (Hcrit : truthy (Lifecycle.analysisResult st) = true
                  ∧ Lifecycle.criticalErrorWithoutViolations
                      (Lifecycle.analysisResult st) = true).
  { rewrite Hresult. unfold answer, analyzeUploadedVideo.
    destruct (keyMissing API_KEY) eqn:Hkey.
    - apply (decoded_error_is_critical keyMissingAnswer
               "API_KEY for Gemini is not configured. Video analysis cannot be performed.");
        [reflexivity|done|by left].
    - destruct Hfail as [Hk | [[t ->] | (response_text & jsonStr & ->)]];
        [done| |].
      + apply (decoded_error_is_critical (callFailedAnswer t)
                 ("Error analyzing video with Gemini: "
                  +:+ match t with
                      | ErrorObject message => message
                      | NotAnError => "An unknown error occurred while analyzing the video with Gemini."
                      end)).
        * unfold callFailedAnswer. apply lookup_insert_eq.
        * destruct t; discriminate.
        * right. unfold callFailedAnswer.
          rewrite !lookup_insert_ne by done. apply lookup_insert_eq.
      + apply (decoded_error_is_critical (nonJsonFallback response_text)
                 "Gemini response was not valid JSON.").
        * unfold nonJsonFallback. apply lookup_insert_eq.
        * done.
        * right. unfold nonJsonFallback.
          rewrite !lookup_insert_ne by done. apply lookup_insert_eq. }
  destruct Hcrit as [Ht Hc]. split.
  - unfold Lifecycle.saveDisabled. rewrite Hc. apply orb_true_r.
  - by rewrite (handleSaveReport_rejects pf st mock Hview Ht Hc).
Qed.

Lemma failed_analysis_is_not_savable_witness :
  Lifecycle.saveDisabled MoreSamples.afterFailedCall = true.
Proof.
  refine (proj1 (failed_analysis_is_not_savable (Some "key")
            (Throws (ErrorObject "quota")) (λ _, "{}") SyntaxError
            Samples.platform MoreSamples.afterFailedCall [] _ _ _)).
  - right. left. by eexists.
  - reflexivity.
  - reflexivity.
Defined.

End gemini.

(** ** The handlers of the analysis page *)

Section session.
Import ApiService Parser GeminiService Lifecycle Session.

(** The three MIME types that [handleFileChange] names are covered by its
    test on the prefix. *)
Lemma acceptedType_prefix t : acceptedType t = String.prefix "video/" t.
Proof.
  unfold acceptedType.
  repeat case_bool_decide; subst; simpl; try done.
Qed.

(** A save of a new analysis without a selected file changes nothing. *)
Lemma handleSaveReport_without_file pf st store :
  selectedReportForViewing st = None → selectedFile st = None →
  mock (handleSaveReport pf st store) = store
  ∧ state (handleSaveReport pf st store) = st.
Proof.
  intros Hview Hfile. unfold handleSaveReport. rewrite Hview, Hfile. simpl.
  destruct (truthy (analysisResult st)); simpl;
    destruct (criticalErrorWithoutViolations (analysisResult st)); simpl; done.
Qed.

(** X11. A file is accepted exactly when its type starts with [video/].
    Picking any other file shows an error, unselects the file and the video,
    and keeps the analysis on display; from then on, outside the history
    view, [handleSaveReport] saves nothing: the store and the state stay as
    they are. *)
Theorem rejected_file_blocks_saving f objectURL s pf store :
  String.prefix "video/" (file_type f) = false →
  selectedReportForViewing (app s) = None →
  let s' := view (handleFileChange (Some f) objectURL s) in
  acceptedType (file_type f) = false
  ∧ selectedFile (app s') = None
  ∧ videoSrc s' = None
  ∧ analysisResult (app s') = analysisResult (app s)
  ∧ uploadedFileDetails (app s') = uploadedFileDetails (app s)
  ∧ mock (handleSaveReport pf (app s') store) = store
  ∧ state (handleSaveReport pf (app s') store) = app s'.
Proof.
  intros Htype Hview.
  assert (Hacc : acceptedType (file_type f) = false)
    by (by rewrite acceptedType_prefix).
  unfold handleFileChange. rewrite Hacc. simpl.
  split_and!; try done; by apply handleSaveReport_without_file.
Qed.

Lemma rejected_file_blocks_saving_witness :
  mock (handleSaveReport Samples.platform
          (app (view (handleFileChange
                        (Some {| picked := {| file_name := "plan.pdf" |};
                                 file_type := "application/pdf" |})
                        "blob:1" MoreSamples.analysedView))) [])
  = [].
Proof.
  apply (rejected_file_blocks_saving
           {| picked := {| file_name := "plan.pdf" |};
              file_type := "application/pdf" |}
           "blob:1" MoreSamples.analysedView Samples.platform []);
    reflexivity.
Defined.

(** X12. Selecting a report of the history makes it the viewed and the
    active report and clears the file and the upload details; the video is
    cleared whenever one was shown or no file was selected.  The update that
    the page then offers never adds a report: it updates, in the store, the
    first report that carries the same id with the comments, the status and
    the violations of the selected report, and leaves the store alone when
    no report carries that id. *)
Theorem history_selection_then_update toText report objectURL s store rid status :
  get report "id" = JStr rid →
  get report "reportStatus" = JStr status →
  let s' := view (handleSelectReportFromHistory toText report objectURL s) in
  let updatedData : obj :=
    <["operatorComments" :=
        JStr (stringState (or_else (get report "operatorComments") (JStr "")))]>
    (<["reportStatus" := JStr status]>
    (<["violations" := get report "violations"]> ∅)) in
  selectedReportForViewing (app s') = Some report
  ∧ savedReport (app s') = Some report
  ∧ selectedFile (app s') = None
  ∧ uploadedFileDetails (app s') = None
  ∧ (selectedFile (app s) = None → videoSrc s' = None)
  ∧ (∀ url, videoSrc s = Some url → url ≠ "" → videoSrc s' = None)
  ∧ mock (handleUpdateReport (app s') store)
    = (updateVideoAnalysisReport (JStr rid) updatedData store).2
  ∧ length (mock (handleUpdateReport (app s') store)) = length store.
Proof.
  intros Hid Hstatus s' updatedData.
  assert (Hsave : mock (handleUpdateReport (app s') store)
                  = (updateVideoAnalysisReport (JStr rid) updatedData store).2).
  { unfold s', updatedData, handleSelectReportFromHistory.
    unfold handleUpdateReport. simpl. rewrite Hid, Hstatus. simpl.
    rewrite (bool_decide_eq_true_2 (rid = rid)) by done.
    destruct (updateVideoAnalysisReport _ _ store) as [[message|updated] mock'];
      simpl; [done|].
    by destruct (strict_eq (JStr rid) (get updated "id")). }
  split_and!; try done.
  - intros Hfile. unfold s', handleSelectReportFromHistory. simpl.
    by rewrite Hfile.
  - intros url Hsrc Hurl. unfold s', handleSelectReportFromHistory. simpl.
    rewrite Hsrc. simpl.
    repeat (rewrite (bool_decide_eq_false_2 (url = "")) by done; simpl).
    by rewrite andb_false_r.
  - rewrite Hsave. unfold updateVideoAnalysisReport.
    destruct (findIndex _ store); simpl; [|done]. apply length_insert.
Qed.

Lemma history_selection_then_update_witness :
  length (mock (handleUpdateReport
                  (app (view (handleSelectReportFromHistory (λ _, "site.mp4")
                                MoreSamples.storedReport "blob:1"
                                MoreSamples.analysedView)))
                  MoreSamples.oneReport))
  = 1
  ∧ videoSrc (view (handleSelectReportFromHistory (λ _, "site.mp4")
                      MoreSamples.storedReport "blob:1"
                      MoreSamples.analysedView)) = None.
Proof.
  destruct (history_selection_then_update (λ _, "site.mp4")
              MoreSamples.storedReport "blob:1" MoreSamples.analysedView
              MoreSamples.oneReport "var-1730000000000" "Pending Review"
              eq_refl eq_refl)
    as (_ & _ & _ & _ & _ & Hsrc & _ & Hlen).
  split; [exact Hlen|]. apply (Hsrc "blob:0"); [reflexivity|discriminate].
Defined.

Lemma orString_nonempty a b : b ≠ "" → orString a b ≠ "".
Proof.
  intros Hb. unfold orString. destruct a as [x|]; [|done].
  by case_bool_decide.
Qed.

Lemma failedResult_critical message :
  truthy (failedResult message) = true
  ∧ criticalErrorWithoutViolations (failedResult message) = true.
Proof.
  split; [done|].
  unfold criticalErrorWithoutViolations, failedResult, field. simpl.
  unfold get. rewrite lookup_insert_eq. simpl.
  rewrite lookup_insert_ne by done. rewrite lookup_insert_eq. simpl.
  rewrite andb_true_r. apply negb_true_iff, bool_decide_eq_false_2.
  by case_bool_decide.
Qed.

(** X13. [handleAnalyzeVideo] does nothing but warn when no file is selected
    or the API key is missing.  Otherwise it ends with both busy flags
    cleared, the selected file kept, and neither a viewed nor an active
    report; and when the upload or the analysis call throws, the stored
    analysis result carries the error and no violation, so that it cannot
    be saved. *)
Theorem handleAnalyzeVideo_outcome apiKey JSON_stringify toText upload analyze
    outcome s :
  let r := view (handleAnalyzeVideo apiKey JSON_stringify toText upload
                   analyze outcome s) in
  (selectedFile (app s) = None ∨ keyMissing apiKey = true → r = s)
  ∧ (is_Some (selectedFile (app s)) → keyMissing apiKey = false →
     isUploading r = false ∧ isAnalyzing r = false
     ∧ selectedFile (app r) = selectedFile (app s)
     ∧ selectedReportForViewing (app r) = None
     ∧ savedReport (app r) = None
     ∧ ((∃ message, upload = inl message)
        ∨ (∃ info message, upload = inr info ∧ analyze = inl message) →
        saveDisabled (app r) = true
        ∧ ∀ pf store,
            mock (handleSaveReport pf (app r) store) = store
            ∧ state (handleSaveReport pf (app r) store) = app r)).
Proof.
  intros r. unfold r, handleAnalyzeVideo. split.
  - intros [-> | Hkey]; [done|].
    destruct (selectedFile (app s)); [|done]. by rewrite Hkey.
  - intros [file Hfile] Hkey. rewrite Hfile, Hkey.
    split_and!; try (by destruct upload, analyze).
    intros Hthrown.
    assert (∀ details message,
              saveDisabled (app (analysed details (failedResult message) None s))
              = true
              ∧ ∀ pf store,
                  mock (handleSaveReport pf
                          (app (analysed details (failedResult message) None s))
                          store) = store
                  ∧ state (handleSaveReport pf
                             (app (analysed details (failedResult message) None s))
                             store)
                    = app (analysed details (failedResult message) None s))
      as Hfailed.
    { intros details message.
      destruct (failedResult_critical message) as [Ht Hc]. split.
      - unfold saveDisabled, analysed. cbn [app analysisResult].
        rewrite Hc. apply orb_true_r.
      - intros pf store.
        by rewrite (handleSaveReport_rejects pf
                      (app (analysed details (failedResult message) None s))
                      store eq_refl Ht Hc). }
    destruct Hthrown as [[message ->] | (uploadedInfo & message & -> & ->)];
      apply Hfailed.
Qed.

Lemma handleAnalyzeVideo_outcome_witness :
  saveDisabled
    (app (view (handleAnalyzeVideo (Some "key") (λ _, "{}") (λ _, "")
                  (inl "Error uploading/processing video: network")
                  (inl "") SyntaxError MoreSamples.analysedView)))
  = true.
Proof.
  apply (handleAnalyzeVideo_outcome (Some "key") (λ _, "{}") (λ _, "")
           (inl "Error uploading/processing video: network")
           (inl "") SyntaxError MoreSamples.analysedView);
    [by eexists|reflexivity|left; by eexists].
Defined.

End session.

(** ** Evidence binding, continued *)

Section binder_more.
Import Capture Binder BinderReport.
Context (browser : nat → Browser).





End binder_more.



Section binder_counts.
Import Capture Binder BinderReport.
Context (browser : nat → Browser).




End binder_counts.



(** ** Frame capture, continued *)

Section capture_more.
Import Capture CaptureFacts.

Lemma captureOnElement_direct v timeSeconds b :
  direct v →
  captureOnElement v timeSeconds b = proceedWithCapture Executor v timeSeconds b.
Proof. apply captureOnElement_ready. Qed.

Lemma captureOnElement_awaited v timeSeconds b :
  awaited v b →
  captureOnElement v timeSeconds b
  = proceedWithCapture MetadataListener v timeSeconds b.
Proof.
  unfold awaited, captureOnElement. intros (Hready & Hsrc & Hmeta).
  rewrite bool_decide_eq_true_2 by done. rewrite Hmeta.
  destruct (bool_decide (readyState v = HAVE_NOTHING)
            && bool_decide (currentSrc v = "")) eqn:Hnone; [|done].
  apply andb_true_iff in Hnone as [H1 H2].
  apply bool_decide_eq_true in H1, H2. by destruct Hsrc.
Qed.

Lemma captureOnElement_not_reached v timeSeconds b :
  ¬ proceeds v b →
  captureOnElement v timeSeconds b
  = {| settled := Resolved None; element := v; calls := [] |}.
Proof.
  unfold proceeds, direct, awaited, captureOnElement. intros Hno.
  case_bool_decide as Hready; [|destruct Hno; left; lia].
  destruct (bool_decide (readyState v = HAVE_NOTHING)
            && bool_decide (currentSrc v = "")) eqn:Hnone; [done|].
  destruct (metadataSignal b) eqn:Hmeta; [|done].
  destruct Hno. right. split_and!; [done| |done]. intros [H1 H2].
  by rewrite (bool_decide_eq_true_2 _ H1), (bool_decide_eq_true_2 _ H2) in Hnone.
Qed.

(** A call of [captureFrameAtTime] on an element takes one of three ways. *)
Lemma captureOnElement_cases v b :
  (direct v ∧ ¬ awaited v b) ∨ (awaited v b ∧ ¬ direct v) ∨ ¬ proceeds v b.
Proof.
  unfold proceeds, direct, awaited.
  destruct (decide (HAVE_METADATA ≤ readyState v)%Z) as [?|Hr].
  { left. split; [done|]. intros (? & _). lia. }
  destruct (decide (readyState v = HAVE_NOTHING ∧ currentSrc v = "")) as [Hn|Hn].
  { right. right. intros [?|(_ & ? & _)]; done. }
  destruct (metadataSignal b) eqn:Hm.
  - right. left. split; [|done]. split_and!; [lia|done..].
  - right. right. intros [?|(_ & _ & ?)]; done.
Qed.

(** X16. How the promise of [captureFrameAtTime] ends, whatever value is
    passed as the time, when the browser runs the timers and the frame
    callback that the code has asked for.  It is rejected exactly when the element has its
    metadata and the time is not a finite number, or [proceedWithCapture]
    is reached with a finite time and the seek ends with a media error or
    with the 7000 ms time-out.  It is never settled exactly when the
    metadata had to be awaited and the time is not a finite number: the
    TypeError is then thrown in a listener.  It resolves with an image
    exactly when [proceedWithCapture] is reached with a finite time and the
    seek completes on a frame with non-zero width and height and a 2d
    context, and the image is then the data URL of the canvas.  In every
    other case it resolves to [null]. *)
Theorem captureFrameAt_outcomes videoElement timeSeconds b :
  ((∃ message, captureFrameAt videoElement timeSeconds b = Rejected message)
   ↔ ∃ v, videoElement = Some v
          ∧ ((direct v ∧ ¬ finite timeSeconds b)
             ∨ (proceeds v b ∧ finite timeSeconds b
                ∧ (seekSignal b = MediaError ∨ seekSignal b = SeekTimeout))))
  ∧ (captureFrameAt videoElement timeSeconds b = Pending
     ↔ ∃ v, videoElement = Some v ∧ awaited v b ∧ ¬ finite timeSeconds b)
  ∧ (∀ url,
       captureFrameAt videoElement timeSeconds b = Resolved (Some url)
       ↔ ∃ v, videoElement = Some v ∧ proceeds v b ∧ finite timeSeconds b
              ∧ seekSignal b = Seeked
              ∧ widthAtFrame b ≠ 0%Z ∧ heightAtFrame b ≠ 0%Z
              ∧ context2d b = true ∧ url = dataURL b).
Proof.
  assert (Hout : ∀ s,
    seekOutcome b = s →
    ((∃ message, s = Rejected message)
     ↔ seekSignal b = MediaError ∨ seekSignal b = SeekTimeout)
    ∧ s ≠ Pending
    ∧ ∀ url, s = Resolved (Some url)
             ↔ seekSignal b = Seeked
               ∧ widthAtFrame b ≠ 0%Z ∧ heightAtFrame b ≠ 0%Z
               ∧ context2d b = true ∧ url = dataURL b).
  { intros s <-. unfold seekOutcome.
    destruct (seekSignal b).
    - destruct (bool_decide (widthAtFrame b = 0%Z)) eqn:Hw;
        [apply bool_decide_eq_true in Hw|apply bool_decide_eq_false in Hw];
        (destruct (bool_decide (heightAtFrame b = 0%Z)) eqn:Hh;
         [apply bool_decide_eq_true in Hh|apply bool_decide_eq_false in Hh]);
        simpl; try destruct (context2d b); simpl;
        (split_and!;
         [split; [by intros [? ?]|by intros [?|?]]
         |done
         |intros url; split;
          [intros [= <-] || done|intros (_ & ? & ? & ? & ->); done]]);
        by split_and!.
    - split_and!; [split; [by left|by eexists]|done|].
      intros url. split; [done|]. by intros (? & _).
    - split_and!; [split; [by right|by eexists]|done|].
      intros url. split; [done|]. by intros (? & _). }
  unfold captureFrameAt, finite. destruct videoElement as [v|].
  2:{ split_and!.
      - split; [by intros [? ?]|]. by intros (? & ? & _).
      - split; [done|]. by intros (? & ? & _).
      - intros url. split; [done|]. by intros (? & ? & _). }
  destruct (toNumber (stringToNumber b) timeSeconds) as [t|] eqn:Ht.
  - assert (Hfin : is_Some (Some t)) by eauto.
    assert (Hsettled : proceeds v b →
      settled (captureOnElement v timeSeconds b) = seekOutcome b).
    { intros [Hd|Ha].
      - rewrite captureOnElement_direct by done.
        by apply proceedWithCapture_settled with t.
      - rewrite captureOnElement_awaited by done.
        by apply proceedWithCapture_settled with t. }
    destruct (Hout (seekOutcome b) eq_refl) as (Hrej & Hpend & Himg).
    destruct (captureOnElement_cases v b) as [[Hd _]|[[Ha _]|Hno]].
    + rewrite Hsettled by (by left). split_and!.
      * rewrite Hrej. split.
        -- intros Hs. exists v. split; [done|]. right. split_and!; [by left|done..].
        -- intros (v' & _ & [[_ Hnf]|(_ & _ & Hs)]); [by destruct Hnf|done].
      * split; [done|]. intros (v' & _ & _ & Hnf). by destruct Hnf.
      * intros url. rewrite Himg. split.
        -- intros Hs. exists v. split_and!; [done|by left|done|apply Hs..].
        -- intros (v' & _ & _ & _ & Hs). done.
    + rewrite Hsettled by (by right). split_and!.
      * rewrite Hrej. split.
        -- intros Hs. exists v. split; [done|]. right. split_and!; [by right|done..].
        -- intros (v' & _ & [[_ Hnf]|(_ & _ & Hs)]); [by destruct Hnf|done].
      * split; [done|]. intros (v' & _ & _ & Hnf). by destruct Hnf.
      * intros url. rewrite Himg. split.
        -- intros Hs. exists v. split_and!; [done|by right|done|apply Hs..].
        -- intros (v' & _ & _ & _ & Hs). done.
    + rewrite captureOnElement_not_reached by done. simpl. split_and!.
      * split; [by intros [? ?]|].
        intros (v' & [= <-] & [[Hd Hnf]|(Hp & _)]);
          [by destruct Hnf|by destruct Hno].
      * split; [done|]. intros (v' & _ & _ & Hnf). by destruct Hnf.
      * intros url. split; [done|]. intros (v' & [= <-] & Hp & _). done.
  - assert (Hnf : ¬ is_Some (@None Q)) by (by intros [? ?]).
    destruct (captureOnElement_cases v b) as [[Hd Hna]|[[Ha Hnd]|Hno]].
    + rewrite captureOnElement_direct, proceedWithCapture_non_finite by done.
      simpl. split_and!.
      * split; [|by eexists]. intros _. exists v. split; [done|]. by left.
      * split; [done|]. intros (v' & [= <-] & Ha & _). done.
      * intros url. split; [done|]. intros (v' & _ & _ & Hf & _). done.
    + rewrite captureOnElement_awaited, proceedWithCapture_non_finite by done.
      simpl. split_and!.
      * split; [by intros [? ?]|].
        intros (v' & [= <-] & [[Hd _]|(_ & Hf & _)]); done.
      * split; [|done]. intros _. by exists v.
      * intros url. split; [done|]. intros (v' & _ & _ & Hf & _). done.
    + rewrite captureOnElement_not_reached by done. simpl. split_and!.
      * split; [by intros [? ?]|].
        intros (v' & [= <-] & [[Hd _]|(Hp & _)]);
          [destruct Hno; by left|by destruct Hno].
      * split; [done|]. intros (v' & [= <-] & Ha & _).
        destruct Hno. by right.
      * intros url. split; [done|]. intros (v' & _ & _ & Hf & _). done.
Qed.

(** X17. The calls that [captureFrameAtTime] makes on the element.  When
    [proceedWithCapture] is not reached the element is left as it is and
    nothing is called on it.  When it is reached with a finite time, exactly
    one seek is made, with the value passed as the time, and at most one
    frame is drawn.  When it is reached with a time that is not a finite
    number, a violation without [startTimeSeconds] for one, no seek is made
    and nothing is drawn: an element that was playing has been paused,
    [play] is not called and the element stays paused. *)
Theorem captureOnElement_seeks_once v timeSeconds b :
  let c := captureOnElement v timeSeconds b in
  (¬ proceeds v b → element c = v ∧ calls c = [])
  ∧ (proceeds v b → finite timeSeconds b →
     length (List.filter (λ c, match c with CallSeek _ => true | _ => false end)
               (calls c)) = 1
     ∧ (CallSeek timeSeconds ∈ calls c)
     ∧ length (List.filter (λ c, match c with CallDrawImage => true | _ => false end)
                 (calls c)) ≤ 1)
  ∧ (proceeds v b → ¬ finite timeSeconds b →
     calls c = (if paused v then [] else [CallPause])
     ∧ paused (element c) = true
     ∧ (paused v = true → element c = v)).
Proof.
  intros c. subst c. split_and!.
  - intros Hno. by rewrite (captureOnElement_not_reached v timeSeconds b Hno).
  - intros Hp [t Ht].
    assert (∃ caller, captureOnElement v timeSeconds b
                      = proceedWithCapture caller v timeSeconds b)
      as [caller ->].
    { destruct Hp as [Hd|Ha]; eexists;
        [by apply captureOnElement_direct|by apply captureOnElement_awaited]. }
    destruct (proceedWithCapture_calls caller v timeSeconds b t Ht)
      as (draw & Hdraw & ->).
    split_and!.
    + destruct (paused v), (negb _ && connectedAtExit b),
        Hdraw as [-> | ->]; done.
    + apply elem_of_app. right. by left.
    + destruct (paused v), (negb _ && connectedAtExit b),
        Hdraw as [-> | ->]; simpl; lia.
  - intros Hp Hnf.
    assert (Ht : toNumber (stringToNumber b) timeSeconds = None).
    { unfold finite in Hnf. destruct (toNumber _ _); [|done].
      destruct Hnf. eauto. }
    assert (∃ caller, captureOnElement v timeSeconds b
                      = proceedWithCapture caller v timeSeconds b)
      as [caller ->].
    { destruct Hp as [Hd|Ha]; eexists;
        [by apply captureOnElement_direct|by apply captureOnElement_awaited]. }
    rewrite proceedWithCapture_non_finite by done. simpl.
    destruct (paused v) eqn:Hv; by split_and!.
Qed.

Lemma captureOnElement_seeks_once_witness :
  calls (captureOnElement Samples.playing JUndefined Samples.frameReady)
  = [CallPause]
  ∧ paused (element (captureOnElement Samples.playing JUndefined
                       Samples.frameReady)) = true.
Proof.
  destruct (captureOnElement_seeks_once Samples.playing JUndefined
              Samples.frameReady) as (_ & _ & Hnf).
  destruct Hnf as (Hcalls & Hpaused & _).
  - left. unfold direct. vm_compute. discriminate.
  - intros [t Ht]. vm_compute in Ht. discriminate Ht.
  - by split.
Defined.

End capture_more.

(** ** Stored videos *)

Section video_store.
Import VideoProcessor VideoStore.

Lemma append_slash_nonempty (a b : string) : a +:+ "/" +:+ b ≠ "".
Proof. by destruct a. Qed.

Lemma markError_status id db row :
  markError id db !! id = Some row → processing_status row = "error".
Proof.
  unfold markError. rewrite lookup_alter_eq.
  destruct (db !! id); simpl; [|done]. by intros [= <-].
Qed.

(** The shape of the result of [processVideoFile]. *)
Lemma processVideoFile_cases h originalFile disk db :
  let processedName := videoId h +:+ "_processed" +:+ fileExtension h in
  let processedPath := processedDir h +:+ "/" +:+ processedName in
  (∃ message disk' db0,
     processVideoFile h originalFile disk db
     = (inl message, disk', markError (videoId h) db0))
  ∨ (∃ output db1,
       run h = FfmpegEnd output
       ∧ is_Some (disk !! path originalFile)
       ∧ processVideoFile h originalFile disk db
         = (inr {| filePath := processedPath;
                   processedFilename := processedName |},
            delete (path originalFile) (<[processedPath := output]> disk),
            <[videoId h := {| processing_status := "completed";
                              processed_filename := processedName;
                              storage_path := Some processedPath |}]> db1)).
Proof.
  intros processedName processedPath. unfold processVideoFile.
  fold processedName. fold processedPath.
  destruct (disk !! path originalFile) as [content|] eqn:Hin;
    [|left; by eexists _, _, _].
  destruct (probe h) as [message|duration audioStream];
    [left; by eexists _, _, _|].
  simpl. unfold processVideo. rewrite Hin.
  destruct (run h) as [output|message partial] eqn:Hrun;
    [|left; by eexists _, _, _].
  destruct (<[processedPath:=output]> disk !! path originalFile);
    [|left; by eexists _, _, _].
  right. by eexists _, _.
Qed.

(** X18. A video can be analysed exactly when its ingest succeeded: after a
    successful [processVideoFile] the analysis route accepts the video and
    reads the repaired file; after a failed one it refuses the video, with
    404 when there is no row and with 400 when the row is marked as
    failed. *)
Theorem ingest_decides_analysis h originalFile disk db :
  match processVideoFile h originalFile disk db with
  | (inr result, disk', db') =>
      analysablePath (videoId h) db' = inr (filePath result)
      ∧ getVideoPath (videoId h) db' = Some (filePath result)
      ∧ (filePath result ≠ path originalFile →
         is_Some (disk' !! filePath result))
  | (inl _, _, db') =>
      analysablePath (videoId h) db' = inl (404%Z, "Video not found")
      ∨ analysablePath (videoId h) db'
        = inl (400%Z, "Video is still being processed")
  end.
Proof.
  destruct (processVideoFile_cases h originalFile disk db)
    as [(message & disk' & db0 & ->) | (output & db1 & Hrun & Hin & ->)].
  - unfold analysablePath.
    destruct (markError (videoId h) db0 !! videoId h) as [row|] eqn:Hrow;
      [|by left].
    rewrite (markError_status _ _ _ Hrow). by right.
  - simpl. unfold analysablePath, getVideoPath.
    rewrite lookup_insert_eq. simpl.
    rewrite bool_decide_eq_false_2 by apply append_slash_nonempty.
    split_and!; [done..|].
    intros Hne. rewrite lookup_delete_ne by done.
    rewrite lookup_insert_eq. eauto.
Qed.

(** X19. Deleting an unknown video throws and changes nothing.  Deleting a
    video right after its successful ingest leaves no trace of it: neither
    the upload nor the repaired file is on disk, the row is gone, and every
    other file is as it was before the ingest. *)
Theorem ingest_then_delete h originalFile disk db :
  (∀ id disk0 (db0 : gmap string VideoRow),
     db0 !! id = None →
     deleteVideo id disk0 db0 = (inl "Video not found", disk0, db0))
  ∧ (∀ result disk' db',
       processVideoFile h originalFile disk db = (inr result, disk', db') →
       ∃ disk'' db'',
         deleteVideo (videoId h) disk' db' = (inr (), disk'', db'')
         ∧ disk'' !! path originalFile = None
         ∧ disk'' !! filePath result = None
         ∧ db'' !! videoId h = None
         ∧ ∀ p, p ≠ path originalFile → p ≠ filePath result →
                disk'' !! p = disk !! p).
Proof.
  split.
  - intros id disk0 db0 Hnone. unfold deleteVideo. by rewrite Hnone.
  - intros result disk' db' Hrun.
    destruct (processVideoFile_cases h originalFile disk db)
      as [(message & disk1 & db0 & Hfail) | (output & db1 & _ & Hin & Hok)].
    { rewrite Hfail in Hrun. discriminate Hrun. }
    rewrite Hok in Hrun. injection Hrun as <- <- <-.
    unfold deleteVideo. rewrite lookup_insert_eq. simpl.
    rewrite bool_decide_eq_false_2 by apply append_slash_nonempty. simpl.
    eexists _, _. split; [reflexivity|].
    set (processedPath := processedDir h +:+ "/" +:+ videoId h
                          +:+ "_processed" +:+ fileExtension h).
    assert (Hdisk : ∀ p,
      (if bool_decide (is_Some (delete (path originalFile)
                                  (<[processedPath:=output]> disk) !! processedPath))
       then delete processedPath
              (delete (path originalFile) (<[processedPath:=output]> disk))
       else delete (path originalFile) (<[processedPath:=output]> disk)) !! p
      = if bool_decide (p = path originalFile ∨ p = processedPath)
        then None else disk !! p).
    { intros p. case_bool_decide as Hex.
      - case_bool_decide as Hp.
        + destruct (decide (p = processedPath)) as [->|Hne].
          * apply lookup_delete_eq.
          * destruct Hp as [-> | ->]; [|done].
            rewrite lookup_delete_ne by done. apply lookup_delete_eq.
        + rewrite !lookup_delete_ne by naive_solver.
          rewrite lookup_insert_ne by naive_solver. done.
      - case_bool_decide as Hp.
        + destruct (decide (p = path originalFile)) as [->|Hne].
          * apply lookup_delete_eq.
          * destruct Hp as [-> | ->]; [done|].
            destruct ((delete (path originalFile)
                         (<[processedPath:=output]> disk)) !! processedPath)
              eqn:Hl; [destruct Hex; eauto|done].
        + rewrite lookup_delete_ne by naive_solver.
          rewrite lookup_insert_ne by naive_solver. done. }
    split_and!.
    + rewrite Hdisk. rewrite bool_decide_eq_true_2; [done|by left].
    + rewrite Hdisk. rewrite bool_decide_eq_true_2; [done|by right].
    + apply lookup_delete_eq.
    + intros p Hp1 Hp2. rewrite Hdisk.
      rewrite bool_decide_eq_false_2; [done|]. intros [?|?]; done.
Qed.

End video_store.

(** ** The analysis and report routes of the backend *)

Section json_match.

Import Js AnalysisRoute.

Lemma append_cons c (s t : string) : String c s +:+ t = String c (s +:+ t).
Proof. reflexivity. Qed.

Lemma append_nil (t : string) : EmptyString +:+ t = t.
Proof. reflexivity. Qed.

Lemma occurs_app c s t : occurs c (s +:+ t) = occurs c s || occurs c t.
Proof.
  induction s as [|c' s IH]; [done|].
  rewrite append_cons. cbn [occurs]. rewrite IH. by rewrite orb_assoc.
Qed.

Lemma append_assoc (s t u : string) : (s +:+ t) +:+ u = s +:+ (t +:+ u).
Proof. induction s as [|c s IH]; [done|]. by rewrite !append_cons, IH. Qed.

Lemma fromFirstBrace_Some s m :
  fromFirstBrace s = Some m →
  ∃ pre rest,
    s = pre +:+ m ∧ m = String "{" rest ∧ occurs "{" pre = false.
Proof.
  induction s as [|c s IH]; [done|]. cbn [fromFirstBrace].
  case_bool_decide as Hc.
  - intros [= <-]. exists EmptyString, s. by rewrite Hc.
  - intros (pre & rest & -> & -> & Hpre)%IH.
    exists (String c pre), rest. split_and!; [done..|].
    cbn [occurs]. rewrite Hpre. by rewrite bool_decide_eq_false_2.
Qed.

Lemma fromFirstBrace_None s :
  fromFirstBrace s = None ↔ occurs "{" s = false.
Proof.
  induction s as [|c s IH]; [done|]. cbn [fromFirstBrace occurs].
  case_bool_decide; [done|]. by rewrite IH.
Qed.

Lemma fromFirstBrace_suffix pre r s1 :
  fromFirstBrace (pre +:+ String "{" r) = Some s1 →
  ∃ p, s1 = p +:+ String "{" r.
Proof.
  induction pre as [|c pre IH];
    rewrite ?append_cons, ?append_nil; cbn [fromFirstBrace].
  - rewrite bool_decide_eq_true_2 by done. intros [= <-]. by exists EmptyString.
  - case_bool_decide.
    + intros [= <-]. by exists (String c pre).
    + apply IH.
Qed.

Lemma upToLastBrace_None s :
  upToLastBrace s = None ↔ occurs "}" s = false.
Proof.
  induction s as [|c s IH]; [done|]. cbn [upToLastBrace occurs].
  destruct (upToLastBrace s) as [t|].
  - destruct IH as [_ IH]. split; [done|].
    intros [_ H]%orb_false_iff. by specialize (IH H).
  - destruct IH as [IH _]. rewrite (IH eq_refl), orb_false_r.
    case_bool_decide; done.
Qed.

Lemma upToLastBrace_Some s t :
  upToLastBrace s = Some t →
  ∃ body post,
    s = t +:+ post ∧ t = body +:+ "}" ∧ occurs "}" post = false.
Proof.
  revert t. induction s as [|c s IH]; [done|]. intros t.
  cbn [upToLastBrace].
  destruct (upToLastBrace s) as [t'|] eqn:Hs.
  - intros [= <-]. destruct (IH t' eq_refl) as (body & post & -> & -> & Hpost).
    by exists (String c body), post.
  - case_bool_decide as Hc; [|done]. intros [= <-]. subst c.
    exists EmptyString, s. split_and!; [done..|].
    by apply upToLastBrace_None.
Qed.

Lemma upToLastBrace_closed body :
  upToLastBrace (body +:+ "}") = Some (body +:+ "}").
Proof.
  induction body as [|c body IH]; [done|].
  rewrite append_cons. cbn [upToLastBrace]. by rewrite IH.
Qed.

(** X20. The match of [/\{[\s\S]*\}/] on the answer of the model, when
    there is one, runs from the first opening brace of the text to its last
    closing brace: no opening brace comes before it and no closing brace
    after it.  There is no match exactly when the text has no opening brace
    that a closing brace follows.  Matching the match again returns it. *)
Theorem jsonMatch_spec (text : string) :
  (∀ m, jsonMatch text = Some m →
     ∃ pre mid post,
       text = pre +:+ m +:+ post ∧ m = "{" +:+ mid +:+ "}"
       ∧ occurs "{" pre = false ∧ occurs "}" post = false)
  ∧ (jsonMatch text = None ↔
       ∀ pre mid post, text ≠ pre +:+ "{" +:+ mid +:+ "}" +:+ post)
  ∧ (∀ m, jsonMatch text = Some m → jsonMatch m = Some m).
Proof.
  assert (Hsome : ∀ m, jsonMatch text = Some m →
     ∃ pre mid post,
       text = pre +:+ m +:+ post ∧ m = "{" +:+ mid +:+ "}"
       ∧ occurs "{" pre = false ∧ occurs "}" post = false).
  { intros m. unfold jsonMatch.
    destruct (fromFirstBrace text) as [s1|] eqn:H1; [|done]. cbn.
    intros H2.
    destruct (fromFirstBrace_Some _ _ H1) as (pre & rest & -> & -> & Hpre).
    destruct (upToLastBrace_Some _ _ H2) as (body & post & Hs & -> & Hpost).
    destruct body as [|c body].
    { rewrite !append_nil, append_cons in Hs. by injection Hs. }
    rewrite !append_cons in Hs. injection Hs as Hc Hrest. subst c rest.
    exists pre, body, post. split_and!; done. }
  split_and!; [done| |].
  - split.
    + intros Hnone pre mid post ->. unfold jsonMatch in Hnone.
      destruct (fromFirstBrace _) as [s1|] eqn:H1.
      * cbn in Hnone.
        apply (fromFirstBrace_suffix pre (mid +:+ "}" +:+ post)) in H1
          as [p ->].
        apply upToLastBrace_None in Hnone.
        rewrite occurs_app in Hnone. cbn [occurs] in Hnone.
        rewrite occurs_app in Hnone. cbn in Hnone.
        by rewrite !orb_true_r in Hnone.
      * apply fromFirstBrace_None in H1.
        rewrite occurs_app in H1. cbn in H1. by rewrite orb_true_r in H1.
    + intros Hno. destruct (jsonMatch text) as [m|] eqn:Hm; [|done].
      destruct (Hsome m eq_refl) as (pre & mid & post & Htext & -> & _).
      exfalso. apply (Hno pre mid post). rewrite Htext. f_equal.
      change (String "{" ((mid +:+ "}") +:+ post)
              = String "{" (mid +:+ "}" +:+ post)).
      by rewrite append_assoc.
  - intros m (pre & mid & post & _ & -> & _)%Hsome.
    change ("{" +:+ mid +:+ "}") with (String "{" mid +:+ "}").
    unfold jsonMatch. rewrite append_cons at 1. cbn [fromFirstBrace].
    rewrite bool_decide_eq_true_2 by done. cbn [mbind option_bind].
    rewrite <- append_cons. apply upToLastBrace_closed.
Qed.

End json_match.

Section analysis_route.

Import Js AnalysisRoute ReportRoutes.

Variables (reportId videoId cwd : string) (ids : Ids).
Variables (jsaContext userInstructions : option string).

Lemma analyze_shape readError call thumbnails db :
  analysis_reports db !! reportId = None →
  ∃ row vrows orows mrows,
    let r := analyze reportId videoId cwd ids jsaContext userInstructions
               readError call thumbnails db in
    analysis_reports r.2 = <[reportId := row]> (analysis_reports db)
    ∧ violations r.2 = violations db ++ vrows
    ∧ Forall (λ r, viol_report_id r = reportId) vrows
    ∧ positive_observations r.2 = positive_observations db ++ orows
    ∧ Forall (λ r, obs_report_id r = reportId) orows
    ∧ report_metadata r.2 = report_metadata db ++ mrows
    ∧ ((r.1 = 200%Z ∧ rep_status row = "completed" ∧ rep_error row = None
        ∧ ∃ m, mrows = [m] ∧ meta_report_id m = reportId
               ∧ meta_report_status m = "pending_review")
       ∨ (r.1 = 500%Z ∧ rep_status row = "error"
          ∧ is_Some (rep_error row) ∧ mrows = [])).
Proof.
  intros Hfresh. unfold analyze. rewrite Hfresh.
  destruct readError as [message|].
  { eexists _, [], [], []. cbn. rewrite alter_insert_eq, !app_nil_r.
    split_and!; try done. right. cbn. split_and!; done. }
  destruct call as [message].
  eexists _, [], [], []. cbn. rewrite alter_insert_eq, !app_nil_r.
  split_and!; try done. right. cbn. split_and!; done.
Qed.

Lemma filter_other_report {A} (f : A → string) (old new : list A) :
  Forall (λ r, f r ≠ reportId) old →
  Forall (λ r, f r = reportId) new →
  List.filter (λ r, negb (bool_decide (f r = reportId))) (old ++ new) = old.
Proof.
  intros Hold Hnew. rewrite List.filter_app.
  replace (List.filter _ new) with (@nil A).
  - rewrite app_nil_r. induction Hold as [|r old Hr _ IH]; [done|].
    cbn. rewrite bool_decide_eq_false_2 by done. cbn. by rewrite IH.
  - induction Hnew as [|r new Hr _ IH]; [done|].
    cbn. by rewrite bool_decide_eq_true_2.
Qed.


(** X23. Deleting the report of an analysis undoes the analysis, whatever
    its outcome: when no row referred to the identifier before, the tables
    after [analyze] followed by [DELETE] are the tables before. *)
Theorem analyze_then_delete readError call thumbnails db :
  analysis_reports db !! reportId = None →
  Forall (λ r, viol_report_id r ≠ reportId) (violations db) →
  Forall (λ r, obs_report_id r ≠ reportId) (positive_observations db) →
  Forall (λ r, meta_report_id r ≠ reportId) (report_metadata db) →
  deleteReport reportId
    (analyze reportId videoId cwd ids jsaContext userInstructions
       readError call thumbnails db).2
  = (200%Z, db).
Proof.
  intros Hfresh Hv Ho Hm.
  destruct (analyze_shape readError call thumbnails db Hfresh)
    as (row & vrows & orows & mrows & Hshape).
  cbv zeta in Hshape.
  destruct Hshape as (Hr & Hv' & Hvr & Ho' & Hor & Hm' & Hcases).
  unfold deleteReport. rewrite Hr, Hv', Ho', Hm', lookup_insert_eq.
  rewrite delete_insert_id by done.
  rewrite !filter_other_report; try done.
  - by destruct db.
  - destruct Hcases as [(_ & _ & _ & m & -> & ? & _)|(_ & _ & _ & ->)];
      by repeat constructor.
Qed.

(** X24. A report whose analysis failed has no metadata row, so that an
    update of it with a valid body answers 200 and stores nothing: the
    tables are unchanged. *)
Theorem updateReport_after_failed_analysis readError call thumbnails body db :
  analysis_reports db !! reportId = None →
  Forall (λ r, meta_report_id r ≠ reportId) (report_metadata db) →
  validStatus body = true →
  let r := analyze reportId videoId cwd ids jsaContext userInstructions
             readError call thumbnails db in
  r.1 = 500%Z →
  updateReport reportId body r.2 = (200%Z, r.2).
Proof.
  intros Hfresh Hm Hvalid r Hcode.
  destruct (analyze_shape readError call thumbnails db Hfresh)
    as (row & vrows & orows & mrows & Hshape).
  fold r in Hshape. cbv zeta in Hshape.
  destruct Hshape as (Hr & _ & _ & _ & _ & Hm' & Hcases).
  destruct Hcases as [(Hcode' & _)|(_ & _ & _ & ->)];
    [by rewrite Hcode in Hcode'|].
  rewrite app_nil_r in Hm'.
  unfold updateReport. rewrite Hvalid, Hr, lookup_insert_eq. cbn [negb].
  f_equal. rewrite <- Hr.
  replace (map _ (report_metadata r.2)) with (report_metadata r.2);
    [by destruct r.2|].
  rewrite Hm'. clear -Hm.
  induction Hm as [|m l Hne _ IH]; [done|].
  cbn. rewrite bool_decide_eq_false_2 by done. by rewrite <- IH.
Qed.


Lemma orString_valid body :
  validStatus body = true →
  GeminiService.orString (body_reportStatus body) "pending_review"
  = default "pending_review" (body_reportStatus body).
Proof.
  unfold validStatus, GeminiService.orString.
  destruct (body_reportStatus body) as [s|]; [|done].
  intros Hs%bool_decide_eq_true. cbn. case_bool_decide as Hempty; [|done].
  subst s. unfold allowedStatus in Hs.
  repeat (apply elem_of_cons in Hs as [Hs|Hs]; [done|]).
  by apply elem_of_nil in Hs.
Qed.

(** X27. An update with a status outside the four allowed ones is refused
    with 400 and changes nothing.  A valid update of an existing report
    answers 200 and rewrites the metadata rows of that report only: the
    status becomes the one of the body, or [pending_review] when the body
    has none, whatever it was; the comments and the tags become those of the
    body, or NULL when the body has none or an empty one.  The identifiers,
    the JSA context and the instructions are kept, and so are the rows of
    the other reports. *)
Theorem updateReport_resets body db :
  is_Some (analysis_reports db !! reportId) →
  let r := updateReport reportId body db in
  (validStatus body = false → r = (400%Z, db))
  ∧ (validStatus body = true →
     r.1 = 200%Z
     ∧ analysis_reports r.2 = analysis_reports db
     ∧ violations r.2 = violations db
     ∧ positive_observations r.2 = positive_observations db
     ∧ length (report_metadata r.2) = length (report_metadata db)
     ∧ ∀ i m, report_metadata db !! i = Some m →
         ∃ m', report_metadata r.2 !! i = Some m'
           ∧ (meta_report_id m ≠ reportId → m' = m)
           ∧ (meta_report_id m = reportId →
                meta_report_status m'
                = default "pending_review" (body_reportStatus body)
                ∧ meta_operator_comments m' = orNull (body_operatorComments body)
                ∧ meta_tags m' = orNull (body_tags body)
                ∧ meta_id m' = meta_id m ∧ meta_report_id m' = reportId
                ∧ meta_jsa_context m' = meta_jsa_context m
                ∧ meta_user_instructions m' = meta_user_instructions m)).
Proof.
  intros [row Hrow] r. subst r. unfold updateReport. rewrite Hrow. split.
  - by intros ->.
  - intros Hvalid. rewrite Hvalid. cbn [negb fst snd report_metadata
      analysis_reports violations positive_observations].
    split_and!; try done.
    + by rewrite length_map.
    + intros i m Hm. eexists. split.
      { change (map ?f ?l) with (f <$> l). rewrite list_lookup_fmap, Hm.
        done. }
      case_bool_decide as Hid; split; try done.
      intros _. cbn. by rewrite orString_valid.
Qed.

Lemma deleteReport_found db row :
  analysis_reports db !! reportId = Some row →
  deleteReport reportId db
  = (200%Z,
     {| analysis_reports := delete reportId (analysis_reports db);
        violations :=
          List.filter (λ r, negb (bool_decide (viol_report_id r = reportId)))
            (violations db);
        positive_observations :=
          List.filter (λ r, negb (bool_decide (obs_report_id r = reportId)))
            (positive_observations db);
        report_metadata :=
          List.filter (λ r, negb (bool_decide (meta_report_id r = reportId)))
            (report_metadata db) |}).
Proof. intros Hrow. unfold deleteReport. by rewrite Hrow. Qed.

(** X28. Deleting an unknown report answers 404 and changes nothing.
    Deleting a stored report answers 200 and removes the report with
    exactly the violations, observations and metadata rows that refer to
    it; deleting it a second time answers 404. *)
Theorem deleteReport_cascade db :
  let r := deleteReport reportId db in
  (analysis_reports db !! reportId = None → r = (404%Z, db))
  ∧ (is_Some (analysis_reports db !! reportId) →
     r.1 = 200%Z
     ∧ analysis_reports r.2 = delete reportId (analysis_reports db)
     ∧ (∀ v, v ∈ violations r.2 ↔
             v ∈ violations db ∧ viol_report_id v ≠ reportId)
     ∧ (∀ o, o ∈ positive_observations r.2 ↔
             o ∈ positive_observations db ∧ obs_report_id o ≠ reportId)
     ∧ (∀ m, m ∈ report_metadata r.2 ↔
             m ∈ report_metadata db ∧ meta_report_id m ≠ reportId)
     ∧ deleteReport reportId r.2 = (404%Z, r.2)).
Proof.
  intros r. split.
  { intros Hnone. subst r. unfold deleteReport. by rewrite Hnone. }
  intros [row Hrow]. subst r. rewrite (deleteReport_found db row Hrow).
  cbn [fst snd analysis_reports violations positive_observations
       report_metadata].
  assert (Hfilter : ∀ {A} (f : A → string) (l : list A) (x : A),
    x ∈ List.filter (λ r, negb (bool_decide (f r = reportId))) l
    ↔ x ∈ l ∧ f x ≠ reportId).
  { intros A f l x. rewrite !list_elem_of_In, List.filter_In.
    by rewrite negb_true_iff, bool_decide_eq_false. }
  split_and!; try done.
  unfold deleteReport. cbn [analysis_reports]. by rewrite lookup_delete_eq.
Qed.

End analysis_route.

(** The theorems above at the tables of [MoreSamples]. *)

Section route_samples.

Import Js AnalysisRoute ReportRoutes.

Lemma reportTables_new_report :
  analysis_reports MoreSamples.reportTables !! "report-2" = None.
Proof. by vm_compute. Qed.

Lemma reportTables_other_violations :
  Forall (λ r, viol_report_id r ≠ "report-2")
    (violations MoreSamples.reportTables).
Proof. by repeat constructor. Qed.

Lemma reportTables_other_observations :
  Forall (λ r, obs_report_id r ≠ "report-2")
    (positive_observations MoreSamples.reportTables).
Proof. by repeat constructor. Qed.

Lemma reportTables_other_metadata :
  Forall (λ r, meta_report_id r ≠ "report-2")
    (report_metadata MoreSamples.reportTables).
Proof. by repeat constructor. Qed.


Lemma analyze_then_delete_witness :
  deleteReport "report-2"
    (analyze "report-2" "video-1" "/srv/app" MoreSamples.nextIds None None
       None (ModelThrows "genAI.getGenerativeModel is not a function")
       (λ _, true) MoreSamples.reportTables).2
  = (200%Z, MoreSamples.reportTables).
Proof.
  apply analyze_then_delete.
  - exact reportTables_new_report.
  - exact reportTables_other_violations.
  - exact reportTables_other_observations.
  - exact reportTables_other_metadata.
Defined.

Lemma updateReport_after_failed_analysis_witness :
  let r := analyze "report-2" "video-1" "/srv/app" MoreSamples.nextIds None
             None None (ModelThrows "genAI.getGenerativeModel is not a function") (λ _, true)
             MoreSamples.reportTables in
  updateReport "report-2" MoreSamples.commentOnly r.2 = (200%Z, r.2).
Proof.
  intros r.
  apply (updateReport_after_failed_analysis "report-2" "video-1" "/srv/app"
           MoreSamples.nextIds None None None (ModelThrows "genAI.getGenerativeModel is not a function")
           (λ _, true) MoreSamples.commentOnly MoreSamples.reportTables
           reportTables_new_report reportTables_other_metadata eq_refl).
  reflexivity.
Defined.

Lemma updateReport_resets_witness :
  (updateReport "report-1" MoreSamples.commentOnly
     MoreSamples.reportTables).1 = 200%Z.
Proof.
  assert (Hstored : is_Some (analysis_reports MoreSamples.reportTables
                             !! "report-1"))
    by (eexists; vm_compute; reflexivity).
  destruct (updateReport_resets "report-1" MoreSamples.commentOnly
              MoreSamples.reportTables Hstored) as [_ Hvalid].
  by apply Hvalid.
Defined.

End route_samples.
